(** * simplechat: the two chat handlers of [lambda/index.py]

    A shallow embedding of [extract_region_from_arn], [lambda_fastapi_handler]
    and [lambda_handler].  Python objects are the values [json.loads] can
    produce; the library calls the handlers make ([json.loads], [json.dumps],
    [str], [boto3.client], [invoke_model], [urlopen]) and the two settings
    read from the process environment are the fields of a [Runtime] record,
    over which every statement is quantified.  Exceptions are explicit, the
    module-global [bedrock_client] is threaded as state, and every call that
    leaves the process is written to a per-invocation log.

    A [print] raises [UnicodeEncodeError] when the standard output cannot
    encode what it is given (a lone surrogate in a string of the request, of
    the claims or of a backend answer), so the [print] lines that are handed
    such data are steps of the model.  Three things are taken to be always
    encodable: the output of [json.dumps], which escapes every character
    beyond ASCII; the text [str] gives for a value that is not a string,
    which [repr] makes and escapes; and the text of an error raised inside a
    library.  The lines that print only such texts (114, 165, 176 and the
    line 56 of an [HTTPError]) are not steps of the model. *)

From Stdlib Require Import String Ascii List ZArith Bool Lia DecimalString.
Import ListNotations.
Local Open Scope list_scope.
Local Open Scope string_scope.

(** ** Python values *)

Module Py.

(** A Python [float]: finite ones by sign, decimal mantissa and exponent;
    the handlers only carry floats around and test them for truth. *)
Inductive pyfloat : Type :=
| Finite (negative : bool) (mantissa : N) (exponent : Z)
| Infinite (negative : bool)
| NaN.

(** What [json.loads] returns: [None], [bool], [int], [float], [str], [list]
    and [dict] with [str] keys.  A [dict] keeps its insertion order; looking a
    key up finds its (single) entry. *)
#[warnings="-register-all"]
Inductive value : Type :=
| VNone
| VBool (b : bool)
| VInt (n : Z)
| VFloat (f : pyfloat)
| VStr (s : string)
| VList (items : list value)
| VDict (entries : list (string * value)).

(** The errors raised inside a library call: the [HTTPError] of [urllib],
    and any other one, with its class and the text [str] gives for it. *)
Inductive library_error : Type :=
| HTTPError (code : Z) (reason : string)
| LibraryError (class_name : string) (msg : string).

(** The exceptions (all subclasses of [Exception]) the handlers can meet:
    those the interpreter raises on a subscript, a method or a membership
    test, the two [Exception] the handlers raise themselves, and those of the
    libraries.  [ExceptionOf prefix arg text] is [Exception] built from an
    f-string, a literal [prefix] followed by [arg], of which [text] is what
    [str] gives. *)
Inductive exn : Type :=
| KeyError (key_repr : string)
| TypeError (msg : string)
| AttributeError (msg : string)
| IndexError (msg : string)
| Exception_ (msg : string)
| ExceptionOf (prefix : string) (arg : value) (text : string)
| Library (e : library_error).

Coercion Library : library_error >-> exn.

(** A step returns or raises; [result] is for the steps of the handlers,
    [library_result] for the calls into the libraries. *)
Inductive outcome (E A : Type) : Type :=
| Ok (a : A)
| Raise (e : E).
Arguments Ok {E A} a.
Arguments Raise {E A} e.

Definition result (A : Type) : Type := outcome exn A.
Definition library_result (A : Type) : Type := outcome library_error A.

(** Sequencing of steps that can raise. *)
Definition and_then {A B} (r : result A) (k : A -> result B) : result B :=
  match r with
  | Ok a => k a
  | Raise e => Raise e
  end.

(** What a library call gives, as a step of a handler. *)
Definition from_library {A} (r : library_result A) : result A :=
  match r with
  | Ok a => Ok a
  | Raise e => Raise (Library e)
  end.

Definition string_of_Z (n : Z) : string := NilZero.string_of_int (Z.to_int n).

(** [str(error)] *)
Definition str_exn (e : exn) : string :=
  match e with
  | KeyError r => r
  | TypeError m | AttributeError m | IndexError m | Exception_ m => m
  | ExceptionOf prefix _ text => prefix ++ text
  | Library (HTTPError c r) => "HTTP Error " ++ string_of_Z c ++ ": " ++ r
  | Library (LibraryError _ m) => m
  end.

(** [type(v).__name__] *)
Definition type_name (v : value) : string :=
  match v with
  | VNone => "NoneType"
  | VBool _ => "bool"
  | VInt _ => "int"
  | VFloat _ => "float"
  | VStr _ => "str"
  | VList _ => "list"
  | VDict _ => "dict"
  end.

(** [bool(v)] *)
Definition truthy (v : value) : bool :=
  match v with
  | VNone => false
  | VBool b => b
  | VInt n => negb (n =? 0)%Z
  | VFloat (Finite _ m _) => negb (m =? 0)%N
  | VFloat _ => true
  | VStr s => negb (s =? "")
  | VList l => match l with [] => false | _ :: _ => true end
  | VDict d => match d with [] => false | _ :: _ => true end
  end.

Fixpoint lookup (k : string) (d : list (string * value)) : option value :=
  match d with
  | [] => None
  | (k', v) :: d' => if k' =? k then Some v else lookup k d'
  end.

(** [repr(k)] for the key literals of the program (no quote, no escape). *)
Definition repr_key (k : string) : string := "'" ++ k ++ "'".

(** [v[k]] for a [str] key [k] *)
Definition getitem (v : value) (k : string) : result value :=
  match v with
  | VDict d =>
      match lookup k d with
      | Some x => Ok x
      | None => Raise (KeyError (repr_key k))
      end
  | VList _ => Raise (TypeError "list indices must be integers or slices, not str")
  | VStr _ => Raise (TypeError "string indices must be integers, not 'str'")
  | _ => Raise (TypeError ("'" ++ type_name v ++ "' object is not subscriptable"))
  end.

(** [v[0]]; a [dict] from JSON has no key [0]. *)
Definition getitem0 (v : value) : result value :=
  match v with
  | VList (x :: _) => Ok x
  | VList [] => Raise (IndexError "list index out of range")
  | VStr (String c _) => Ok (VStr (String c ""))
  | VStr "" => Raise (IndexError "string index out of range")
  | VDict _ => Raise (KeyError "0")
  | _ => Raise (TypeError ("'" ++ type_name v ++ "' object is not subscriptable"))
  end.

Definition no_attribute (v : value) (attr : string) : exn :=
  AttributeError ("'" ++ type_name v ++ "' object has no attribute '" ++ attr ++ "'").

(** [v.get(k, default)]; [v.get(k)] is [get v k VNone]. *)
Definition get (v : value) (k : string) (default : value) : result value :=
  match v with
  | VDict d =>
      match lookup k d with
      | Some x => Ok x
      | None => Ok default
      end
  | _ => Raise (no_attribute v "get")
  end.

(** [v.copy()]: lists and dicts have it. *)
Definition copy (v : value) : result value :=
  match v with
  | VList l => Ok (VList l)
  | VDict d => Ok (VDict d)
  | _ => Raise (no_attribute v "copy")
  end.

(** [v.append(x)], returning the list [v] has become. *)
Definition append (v x : value) : result value :=
  match v with
  | VList l => Ok (VList (l ++ [x])%list)
  | _ => Raise (no_attribute v "append")
  end.

Fixpoint is_substring (k s : string) : bool :=
  prefix k s ||
  match s with
  | "" => false
  | String _ s' => is_substring k s'
  end.

Definition is_str (k : string) (v : value) : bool :=
  match v with
  | VStr s => s =? k
  | _ => false
  end.

(** [k in v] for a [str] [k]: key of a dict, element of a list, substring of
    a string. *)
Definition contains (k : string) (v : value) : result bool :=
  match v with
  | VDict d => Ok (match lookup k d with Some _ => true | None => false end)
  | VList l => Ok (existsb (is_str k) l)
  | VStr s => Ok (is_substring k s)
  | _ => Raise (TypeError ("argument of type '" ++ type_name v ++ "' is not iterable"))
  end.

Fixpoint chars (s : string) : list value :=
  match s with
  | "" => []
  | String c s' => VStr (String c "") :: chars s'
  end.

(** The elements [for x in v] goes through. *)
Definition iterate (v : value) : result (list value) :=
  match v with
  | VList l => Ok l
  | VDict d => Ok (map (fun kv => VStr (fst kv)) d)
  | VStr s => Ok (chars s)
  | _ => Raise (TypeError ("'" ++ type_name v ++ "' object is not iterable"))
  end.

(** [s.rstrip('/')] *)
Fixpoint rstrip_slash (s : string) : string :=
  match s with
  | "" => ""
  | String c s' =>
      match rstrip_slash s' with
      | "" => if (c =? "/")%char then "" else String c ""
      | t => String c t
      end
  end.

(** [v] is a dict that has the key [k]. *)
Definition has_key (v : value) (k : string) : bool :=
  match v with
  | VDict d => match lookup k d with Some _ => true | None => false end
  | _ => false
  end.

End Py.
Import Py.

Notation "'let*' x ':=' r 'in' k" := (and_then r (fun x => k))
  (at level 10, x name, r at level 100, k at level 200).

(** ** Region extraction (index.py, lines 10-15) *)

Definition arn_pattern_prefix : string := "arn:aws:lambda:".

(** [drop_prefix p s] is what follows [p] in [s] when [s] starts with [p]. *)
Fixpoint drop_prefix (p s : string) : option string :=
  match p with
  | "" => Some s
  | String a p' =>
      match s with
      | "" => None
      | String b s' => if (a =? b)%char then drop_prefix p' s' else None
      end
  end.

(** The longest prefix of [s] without a colon, and what follows it: how the
    greedy [[^:]+] runs. *)
Fixpoint span_not_colon (s : string) : string * string :=
  match s with
  | "" => ("", "")
  | String c s' =>
      if (c =? ":")%char then ("", s)
      else let (g, tl) := span_not_colon s' in (String c g, tl)
  end.

(** The pattern ['arn:aws:lambda:([^:]+):'] matched at the start of [s]:
    group 1.  The class excludes the colon that must follow the group, so the
    group is the whole run up to the next colon and no shorter one can
    match. *)
Definition match_arn_here (s : string) : option string :=
  match drop_prefix arn_pattern_prefix s with
  | None => None
  | Some rest =>
      match span_not_colon rest with
      | (String c g, String _ _) => Some (String c g)
      | _ => None
      end
  end.

(** [re.search]: the match at the leftmost position that has one. *)
Fixpoint re_search_arn (s : string) : option string :=
  match match_arn_here s with
  | Some g => Some g
  | None =>
      match s with
      | "" => None
      | String _ s' => re_search_arn s'
      end
  end.

Definition extract_region_from_arn (arn : string) : string :=
  match re_search_arn arn with
  | Some g => g
  | None => "us-east-1"
  end.

(** ** The world outside the handlers *)

(** A client handle as [boto3.client(service, region_name=...)] makes it. *)
Record client : Type := {
  service_name : string;
  region_name : string
}.

(** The Lambda context object, of which only the ARN is read. *)
Record lambda_context : Type := {
  invoked_function_arn : string
}.

(** [urllib.request.Request(url, data=..., headers=..., method=...)] *)
Record http_request : Type := {
  url : string;
  data : string;
  request_headers : list (string * string);
  method : string
}.

(** The library calls and the configuration.  A call either returns or raises
    an exception; [invoke_model] returns the text read from the [body] of the
    reply, [urlopen] the UTF-8 decoded text read from the response.
    [stdout_encodes] tells the characters beyond ASCII that the standard
    output can encode, and [encode_error] the text of the
    [UnicodeEncodeError] raised for a text it cannot. *)
Record Runtime : Type := {
  json_loads : string -> library_result value;
  json_dumps : value -> string;
  py_str : value -> string;
  MODEL_ID : string;
  FASTAPI_URL : string;
  boto3_client : string -> string -> library_result client;
  invoke_model : client -> string -> string -> string -> library_result string;
  urlopen : http_request -> library_result string;
  stdout_encodes : ascii -> bool;
  encode_error : string -> string
}.

(** What leaves the process during one invocation, in order. *)
Inductive call : Type :=
| Boto3Client (service region : string)
| InvokeModel (c : client) (modelId body contentType : string)
| UrlOpen (req : http_request).

(** [bedrock_client] is the module-global; [calls] the log of the invocation. *)
Record world : Type := {
  bedrock_client : option client;
  calls : list call
}.

(** ** State and exceptions *)

(** A computation runs in a world and ends in a world, with a value or a
    raised exception; what was done before a raise stays done. *)
Definition M (A : Type) : Type := world -> world * result A.

Definition ret {A} (a : A) : M A := fun w => (w, Ok a).

Definition raise {A} (e : exn) : M A := fun w => (w, Raise e).

Definition bind {A B} (c : M A) (k : A -> M B) : M B :=
  fun w =>
    match c w with
    | (w', Ok a) => k a w'
    | (w', Raise e) => (w', Raise e)
    end.

Definition lift {A} (r : result A) : M A := fun w => (w, r).

(** [try: c  except Exception as error: h error] *)
Definition try_except {A} (c : M A) (h : exn -> M A) : M A :=
  fun w =>
    match c w with
    | (w', Ok a) => (w', Ok a)
    | (w', Raise e) => h e w'
    end.

Declare Scope py_scope.
Delimit Scope py_scope with py.
Notation "x <- c ;; k" := (bind c (fun x => k))
  (at level 61, c at next level, right associativity) : py_scope.
Notation "c ;; k" := (bind c (fun _ => k))
  (at level 61, right associativity) : py_scope.
Local Open Scope py_scope.

Definition log (c : call) : M unit :=
  fun w => ({| bedrock_client := bedrock_client w; calls := (calls w ++ [c])%list |}, Ok tt).

Definition read_bedrock_client : M (option client) :=
  fun w => (w, Ok (bedrock_client w)).

Definition write_bedrock_client (c : client) : M unit :=
  fun w => ({| bedrock_client := Some c; calls := calls w |}, Ok tt).

(** ** The response envelope *)

Record response : Type := {
  statusCode : Z;
  headers : list (string * string);
  body : string
}.

(** The header mapping written out four times in index.py (lines 73-78,
    92-97, 194-199, 212-217). *)
Definition cors_headers : list (string * string) :=
  [ ("Content-Type", "application/json");
    ("Access-Control-Allow-Origin", "*");
    ("Access-Control-Allow-Headers",
     "Content-Type,X-Amz-Date,Authorization,X-Api-Key,X-Amz-Security-Token");
    ("Access-Control-Allow-Methods", "OPTIONS,POST") ].

Definition turn (role : string) (content : value) : value :=
  VDict [("role", VStr role); ("content", content)].

(** ** Printing *)

(** A character of the ASCII range: every standard output encodes those. *)
Definition is_ascii (c : ascii) : bool :=
  match c with
  | Ascii _ _ _ _ _ _ _ high => negb high
  end.

Section Printing.

Variable rt : Runtime.

(** The standard output can encode the text. *)
Fixpoint printable (s : string) : bool :=
  match s with
  | "" => true
  | String c s' => (is_ascii c || stdout_encodes rt c) && printable s'
  end.

(** [str(v)]: a string is its own text. *)
Definition str_value (v : value) : string :=
  match v with
  | VStr s => s
  | _ => py_str rt v
  end.

(** The standard output can encode [str(v)]. *)
Definition can_show (v : value) : bool :=
  match v with
  | VStr s => printable s
  | _ => true
  end.

Definition unicode_encode_error (text : string) : exn :=
  Library (LibraryError "UnicodeEncodeError" (encode_error rt text)).

(** [print(label, v)] and [print(f...)] with [v] after the literal [label],
    which is ASCII. *)
Definition print_value (label : string) (v : value) : result unit :=
  if can_show v then Ok tt else Raise (unicode_encode_error (str_value v)).

(** The standard output can encode [str(error)]. *)
Definition error_printable (error : exn) : bool :=
  match error with
  | KeyError m | TypeError m | AttributeError m | IndexError m | Exception_ m =>
      printable m
  | ExceptionOf prefix arg _ => printable prefix && can_show arg
  | Library _ => true
  end.

(** [print("Error:", str(error))] *)
Definition print_error (error : exn) : result unit :=
  if error_printable error then Ok tt
  else Raise (unicode_encode_error (str_exn error)).

End Printing.

Section Handlers.

Variable rt : Runtime.

(** [json.loads(x)] for an [x] that need not be a string. *)
Definition json_loads_value (x : value) : result value :=
  match x with
  | VStr s => from_library (json_loads rt s)
  | _ => Raise (TypeError ("the JSON object must be str, bytes or bytearray, not "
                           ++ type_name x))
  end.

(** Lines 27-29 and again 123-125: the message and the history of the
    request. *)
Definition parse_request (event : value) : result (value * value) :=
  let* raw := getitem event "body" in
  let* body := json_loads_value raw in
  let* message := getitem body "message" in
  let* conversation_history := get body "conversationHistory" (VList []) in
  Ok (message, conversation_history).

(** The response of the [except Exception] arm of both handlers (lines
    90-102, 210-222). *)
Definition failure_response (error : exn) : response :=
  {| statusCode := 500;
     headers := cors_headers;
     body := json_dumps rt (VDict [("success", VBool false);
                                    ("error", VStr (str_exn error))]) |}.

(** The [except Exception as error] arm of both handlers (lines 87-102,
    207-222): the error is printed, then the response returned.  An error
    raised by the [print] leaves the handler. *)
Definition except_arm (error : exn) : M response :=
  lift (print_error rt error) ;;
  ret (failure_response error).

(** *** lambda_fastapi_handler (lines 25-102) *)

(** Lines 33-39. *)
Definition payload_dict (message : value) : value :=
  VDict [("prompt", message);
         ("max_new_tokens", VInt 512);
         ("do_sample", VBool true);
         ("temperature", VFloat (Finite false 7 (-1)));
         ("top_p", VFloat (Finite false 9 (-1)))].

(** Lines 31-49. *)
Definition fastapi_request (message : value) : http_request :=
  {| url := rstrip_slash (FASTAPI_URL rt) ++ "/generate";
     data := json_dumps rt (payload_dict message);
     request_headers := [("Content-Type", "application/json")];
     method := "POST" |}.

(** Lines 51-57: the call, and the arm that prints the code and the reason
    of an [HTTPError] and raises it again. *)
Definition call_urlopen (req : http_request) : M string :=
  try_except
    (log (UrlOpen req) ;; lift (from_library (urlopen rt req)))
    (fun e => raise e).

(** Lines 71-85. *)
Definition fastapi_success (assistant_response response_time updated_history : value)
  : response :=
  {| statusCode := 200;
     headers := cors_headers;
     body := json_dumps rt (VDict [("success", VBool true);
                                    ("response", assistant_response);
                                    ("response_time", response_time);
                                    ("conversationHistory", updated_history)]) |}.

(** Lines 59-60: [a not in r or b not in r], the second test only made when
    the first is false. *)
Definition fields_missing (api_result : value) : result bool :=
  let* has_text := contains "generated_text" api_result in
  if negb has_text then Ok true
  else let* has_time := contains "response_time" api_result in
       Ok (negb has_time).

(** Lines 54-85: from the text of the reply to the response. *)
Definition fastapi_finish (conversation_history : value) (resp_body : string)
  : result response :=
  let* api_result := from_library (json_loads rt resp_body) in
  let* missing := fields_missing api_result in
  if (missing : bool) then
    Raise (ExceptionOf "Unexpected response from FastAPI: " api_result
             (str_value rt api_result))
  else
    let* assistant_response := getitem api_result "generated_text" in
    let* response_time := getitem api_result "response_time" in
    let* updated_history := copy conversation_history in
    let* updated_history := append updated_history (turn "assistant" assistant_response) in
    Ok (fastapi_success assistant_response response_time updated_history).

(** Lines 27-85: the body of the [try]. *)
Definition lambda_fastapi_try (event : value) : M response :=
  request <- lift (parse_request event) ;;
  resp_body <- call_urlopen (fastapi_request (fst request)) ;;
  lift (fastapi_finish (snd request) resp_body).

Definition lambda_fastapi_handler (event : value) (context : lambda_context)
  : M response :=
  try_except (lambda_fastapi_try event) except_arm.

(** *** lambda_handler (lines 105-222) *)

(** Lines 108-112: the client is made on the first use and kept, and the
    region printed. *)
Definition acquire_client (context : lambda_context) : M unit :=
  cached <- read_bedrock_client ;;
  match cached with
  | Some _ => ret tt
  | None =>
      let region := extract_region_from_arn (invoked_function_arn context) in
      log (Boto3Client "bedrock-runtime" region) ;;
      c <- lift (from_library (boto3_client rt "bedrock-runtime" region)) ;;
      write_bedrock_client c ;;
      lift (print_value rt "Initialized Bedrock client in region: " (VStr region))
  end.

(** Lines 117-120: the claims of the authorizer are read and the email, or
    else the user name, printed; reading and printing can raise. *)
Definition read_user_info (event : value) : result unit :=
  let* has_context := contains "requestContext" event in
  let* has_authorizer :=
    (if (has_context : bool) then
       let* request_context := getitem event "requestContext" in
       contains "authorizer" request_context
     else Ok false) in
  if (has_authorizer : bool) then
    let* request_context := getitem event "requestContext" in
    let* authorizer := getitem request_context "authorizer" in
    let* user_info := getitem authorizer "claims" in
    let* email := get user_info "email" VNone in
    let* user :=
      (if truthy email then Ok email
       else get user_info "cognito:username" VNone) in
    print_value rt "Authenticated user: " user
  else Ok tt.

(** Lines 131-137: the new user turn goes at the end of a copy of the
    history. *)
Definition assemble_messages (message conversation_history : value) : result value :=
  let* messages := copy conversation_history in
  append messages (turn "user" message).

(** The message built at lines 144-147 and 149-152. *)
Definition hosted_message (role : string) (content : value) : value :=
  VDict [("role", VStr role); ("content", VList [VDict [("text", content)]])].

(** The body of the loop, lines 143-152: [None] when the turn is skipped. *)
Definition bedrock_message (msg : value) : result (option value) :=
  let* role := getitem msg "role" in
  if is_str "user" role then
    let* content := getitem msg "content" in
    Ok (Some (hosted_message "user" content))
  else
    let* role := getitem msg "role" in
    if is_str "assistant" role then
      let* content := getitem msg "content" in
      Ok (Some (hosted_message "assistant" content))
    else Ok None.

(** Lines 141-152: the loop, stopping at the first turn that raises. *)
Fixpoint bedrock_messages (messages : list value) : result (list value) :=
  match messages with
  | [] => Ok []
  | msg :: rest =>
      let* mapped := bedrock_message msg in
      let* tail := bedrock_messages rest in
      Ok (match mapped with Some m => m :: tail | None => tail end)
  end.

(** Lines 155-163. *)
Definition request_payload (mapped : list value) : value :=
  VDict [("messages", VList mapped);
         ("inferenceConfig",
          VDict [("maxTokens", VInt 512);
                 ("stopSequences", VList []);
                 ("temperature", VFloat (Finite false 7 (-1)));
                 ("topP", VFloat (Finite false 9 (-1)))])].

(** Lines 168-175: the call on the global client, and the text of its reply. *)
Definition call_invoke_model (payload : value) : M string :=
  cached <- read_bedrock_client ;;
  match cached with
  | None => raise (no_attribute VNone "invoke_model")
  | Some c =>
      let request_body := json_dumps rt payload in
      log (InvokeModel c (MODEL_ID rt) request_body "application/json") ;;
      lift (from_library
              (invoke_model rt c (MODEL_ID rt) request_body "application/json"))
  end.

Definition no_content : exn := Exception_ "No response content from the model".

(** Lines 179-183: the three tests joined by [or], then the reply text. *)
Definition extract_reply (response_body : value) : result value :=
  let* output := get response_body "output" VNone in
  if negb (truthy output) then Raise no_content else
  let* output := getitem response_body "output" in
  let* message := get output "message" VNone in
  if negb (truthy message) then Raise no_content else
  let* message := getitem output "message" in
  let* content := get message "content" VNone in
  if negb (truthy content) then Raise no_content else
  let* content := getitem message "content" in
  let* first := getitem0 content in
  getitem first "text".

(** Lines 192-205. *)
Definition hosted_success (assistant_response messages : value) : response :=
  {| statusCode := 200;
     headers := cors_headers;
     body := json_dumps rt (VDict [("success", VBool true);
                                    ("response", assistant_response);
                                    ("conversationHistory", messages)]) |}.

(** Lines 175-205: from the text of the reply to the response. *)
Definition hosted_finish (messages : value) (reply_text : string) : result response :=
  let* response_body := from_library (json_loads rt reply_text) in
  let* assistant_response := extract_reply response_body in
  let* messages := append messages (turn "assistant" assistant_response) in
  Ok (hosted_success assistant_response messages).

(** Lines 141-152: the messages of the request, from the assembled ones. *)
Definition map_messages (messages : value) : result (list value) :=
  let* turns := iterate messages in
  bedrock_messages turns.

(** Lines 127-128: the message and the model identifier are printed. *)
Definition print_processing (message : value) : result unit :=
  let* printed := print_value rt "Processing message:" message in
  print_value rt "Using model:" (VStr (MODEL_ID rt)).

(** Lines 108-205: the body of the [try]. *)
Definition lambda_try (event : value) (context : lambda_context) : M response :=
  acquire_client context ;;
  lift (read_user_info event) ;;
  request <- lift (parse_request event) ;;
  lift (print_processing (fst request)) ;;
  messages <- lift (assemble_messages (fst request) (snd request)) ;;
  mapped <- lift (map_messages messages) ;;
  reply_text <- call_invoke_model (request_payload mapped) ;;
  lift (hosted_finish messages reply_text).

Definition lambda_handler (event : value) (context : lambda_context)
  : M response :=
  try_except (lambda_try event context) except_arm.

End Handlers.

(** The world at the start of an invocation: the global as the process left
    it, and nothing logged yet. *)
Definition start (cached : option client) : world :=
  {| bedrock_client := cached; calls := [] |}.

(** The client an invocation works with: the cached one, or the one made for
    the region of the ARN. *)
Definition client_in_use (rt : Runtime) (context : lambda_context)
  (cached : option client) : result client :=
  match cached with
  | Some c => Ok c
  | None =>
      from_library
        (boto3_client rt "bedrock-runtime"
           (extract_region_from_arn (invoked_function_arn context)))
  end.

(** ** Vocabulary of the statements *)

Fixpoint colon_free (s : string) : bool :=
  match s with
  | "" => true
  | String c s' => negb (c =? ":")%char && colon_free s'
  end.

(** [arn] has a substring [arn:aws:lambda:<region>:], the region being one or
    more characters other than a colon. *)
Definition has_lambda_arn (arn : string) : Prop :=
  exists before region rest,
    arn = before ++ arn_pattern_prefix ++ region ++ ":" ++ rest
    /\ region <> "" /\ colon_free region = true.

(** The body of [event] is a string that [json.loads] decodes to [request]. *)
Definition decoded_body (rt : Runtime) (event request : value) : Prop :=
  exists entries text,
    event = VDict entries
    /\ lookup "body" entries = Some (VStr text)
    /\ json_loads rt text = Ok request.

(** The world after one more call. *)
Definition logged (w : world) (c : call) : world :=
  {| bedrock_client := bedrock_client w; calls := (calls w ++ [c])%list |}.

(** The steps of [lambda_handler] between the client and the call of the
    model, none of which touches the world: the assembled messages and the
    messages of the request. *)
Definition hosted_prepare (rt : Runtime) (event : value) : result (value * list value) :=
  let* seen := read_user_info rt event in
  let* request := parse_request rt event in
  let* printed := print_processing rt (fst request) in
  let* messages := assemble_messages (fst request) (snd request) in
  let* mapped := map_messages messages in
  Ok (messages, mapped).

Definition role_of (t : value) : option value :=
  match t with
  | VDict d => lookup "role" d
  | _ => None
  end.

Definition content_of (t : value) : option value :=
  match t with
  | VDict d => lookup "content" d
  | _ => None
  end.

(** The role of the turn is [user] or [assistant]. *)
Definition chat_role (t : value) : bool :=
  match role_of t with
  | Some r => is_str "user" r || is_str "assistant" r
  | None => false
  end.

(** [{role, content: [{text: content}]}] for a turn [{role, content}]. *)
Definition to_hosted (t : value) : value :=
  VDict [("role", match role_of t with Some r => r | None => VNone end);
         ("content",
          VList [VDict [("text", match content_of t with Some c => c | None => VNone end)]])].

(** A turn: an object with a role, and with a content when the role is
    [user] or [assistant]. *)
Definition is_turn (t : value) : bool :=
  match role_of t with
  | Some _ => if chat_role t then
                match content_of t with Some _ => true | None => false end
              else true
  | None => false
  end.

(** The reply of the hosted model has an [output] with a [message] whose
    [content] is a list that starts with an element bearing a [text]. *)
Definition bears_reply_text (reply : value) : bool :=
  match reply with
  | VDict d =>
      match lookup "output" d with
      | Some (VDict output) =>
          match lookup "message" output with
          | Some (VDict message) =>
              match lookup "content" message with
              | Some (VList (VDict first :: _)) =>
                  match lookup "text" first with
                  | Some _ => true
                  | None => false
                  end
              | _ => false
              end
          | _ => false
          end
      | _ => false
      end
  | _ => false
  end.

(** What the [except] arm makes of an error: the failure response, or the
    error of its [print]. *)
Definition handled (rt : Runtime) (error : exn) : result response :=
  let* printed := print_error rt error in
  Ok (failure_response rt error).

(** The client is at hand and, when it had to be made, its region printed. *)
Definition client_ready (rt : Runtime) (context : lambda_context)
  (cached : option client) : result client :=
  match cached with
  | Some c => Ok c
  | None =>
      let region := extract_region_from_arn (invoked_function_arn context) in
      let* c := from_library (boto3_client rt "bedrock-runtime" region) in
      let* printed := print_value rt "Initialized Bedrock client in region: "
                        (VStr region) in
      Ok c
  end.

(** The client the process holds after the client was asked for. *)
Definition client_after (rt : Runtime) (context : lambda_context)
  (cached : option client) : option client :=
  match cached with
  | Some c => Some c
  | None =>
      match boto3_client rt "bedrock-runtime"
              (extract_region_from_arn (invoked_function_arn context)) with
      | Ok c => Some c
      | Raise _ => None
      end
  end.

(** ** Test doubles *)

(** A runtime to run the handlers on concrete inputs: a printer of compact
    JSON text, a decoder that knows a given list of documents (and rejects
    any other text), and backends that give a fixed answer to every request. *)
Module Double.

Definition quote : string := String "034"%char "".

Definition show_float (f : pyfloat) : string :=
  match f with
  | Finite neg m e =>
      (if neg then "-" else "") ++ string_of_Z (Z.of_N m) ++ "e" ++ string_of_Z e
  | Infinite neg => if neg then "-Infinity" else "Infinity"
  | NaN => "NaN"
  end.

Fixpoint show (v : value) : string :=
  match v with
  | VNone => "null"
  | VBool b => if b then "true" else "false"
  | VInt n => string_of_Z n
  | VFloat f => show_float f
  | VStr s => quote ++ s ++ quote
  | VList l =>
      "[" ++ (fix items (l : list value) : string :=
                match l with
                | [] => ""
                | x :: l' =>
                    match l' with
                    | [] => show x
                    | _ :: _ => show x ++ ", " ++ items l'
                    end
                end) l ++ "]"
  | VDict d =>
      "{" ++ (fix entries (d : list (string * value)) : string :=
                match d with
                | [] => ""
                | (k, x) :: d' =>
                    match d' with
                    | [] => quote ++ k ++ quote ++ ": " ++ show x
                    | _ :: _ => quote ++ k ++ quote ++ ": " ++ show x ++ ", " ++ entries d'
                    end
                end) d ++ "}"
  end.

Fixpoint decode (documents : list value) (text : string) : library_result value :=
  match documents with
  | [] => Raise (LibraryError "JSONDecodeError" "Expecting value: line 1 column 1 (char 0)")
  | v :: documents' => if show v =? text then Ok v else decode documents' text
  end.

(** A character the standard output of the doubles cannot encode: it stands
    for a lone surrogate. *)
Definition surrogate : ascii := "255"%char.

Definition runtime (documents : list value)
  (model_reply http_reply : library_result string) : Runtime :=
  {| json_loads := decode documents;
     json_dumps := show;
     py_str := show;
     MODEL_ID := "us.amazon.nova-lite-v1:0";
     FASTAPI_URL := "http://localhost:8000";
     boto3_client := fun service region =>
       Ok {| service_name := service; region_name := region |};
     invoke_model := fun _ _ _ _ => model_reply;
     urlopen := fun _ => http_reply;
     stdout_encodes := fun c => negb (c =? surrogate)%char;
     encode_error := fun _ =>
       "'utf-8' codec can't encode character: surrogates not allowed" |}.

Definition context : lambda_context :=
  {| invoked_function_arn := "arn:aws:lambda:eu-west-1:123456789012:function:foo" |}.

(** An event whose body is the text of [request]. *)
Definition event_of (request : value) : value :=
  VDict [("body", VStr (show request))].

Definition hello_request : value :=
  VDict [("message", VStr "hello"); ("conversationHistory", VList [])].

Definition hi_there_reply : value :=
  VDict [("output",
          VDict [("message",
                  VDict [("content", VList [VDict [("text", VStr "hi there")]])])])].

Definition ping_request : value := VDict [("message", VStr "ping")].

Definition pong_reply : value :=
  VDict [("generated_text", VStr "pong");
         ("response_time", VFloat (Finite false 42 (-2)))].

Definition null_request : value := VDict [("message", VNone)].

Definition no_message_request : value := VDict [("conversationHistory", VList [])].

Definition empty_content_reply : value :=
  VDict [("output", VDict [("message", VDict [("content", VList [])])])].

Definition no_time_reply : value := VDict [("generated_text", VStr "pong")].

(** A history with a turn of a role the hosted model is not sent. *)
Definition mixed_history : list value :=
  [turn "system" (VStr "be brief"); turn "user" (VStr "hi");
   turn "assistant" (VStr "hello")].

Definition mixed_request : value :=
  VDict [("message", VStr "hello"); ("conversationHistory", VList mixed_history)].

Definition other_history_request : value :=
  VDict [("message", VStr "ping"); ("conversationHistory", VList mixed_history)].

Definition unreachable : library_error := LibraryError "URLError" "unreachable".

(** Both backends up: the model answers [hi there], the HTTP service [pong]. *)
Definition chat_runtime : Runtime :=
  runtime [hello_request; ping_request; null_request; no_message_request;
           mixed_request; other_history_request; hi_there_reply; pong_reply]
    (Ok (show hi_there_reply)) (Ok (show pong_reply)).

(** A model that answers with an empty content list. *)
Definition empty_content_runtime : Runtime :=
  runtime [hello_request; empty_content_reply]
    (Ok (show empty_content_reply)) (Raise unreachable).

(** An HTTP service that answers without [response_time]. *)
Definition no_time_runtime : Runtime :=
  runtime [ping_request; no_time_reply]
    (Raise unreachable) (Ok (show no_time_reply)).

Definition eu_client : client :=
  {| service_name := "bedrock-runtime"; region_name := "eu-west-1" |}.

End Double.

(** ** Further vocabulary and cases *)

(** [n] slashes. *)
Fixpoint slashes (n : nat) : string :=
  match n with
  | O => ""
  | S n' => String "/" (slashes n')
  end.

(** The last character of [s] is a slash. *)
Fixpoint ends_with_slash (s : string) : bool :=
  match s with
  | "" => false
  | String c s' =>
      match s' with
      | "" => (c =? "/")%char
      | String _ _ => ends_with_slash s'
      end
  end.

Definition is_list (v : value) : bool :=
  match v with
  | VList _ => true
  | _ => false
  end.

Definition is_string (v : value) : bool :=
  match v with
  | VStr _ => true
  | _ => false
  end.

(** The log holds a call of the model. *)
Definition is_model_call (c : call) : bool :=
  match c with
  | InvokeModel _ _ _ _ => true
  | _ => false
  end.

(** The log holds a construction of a client. *)
Definition is_client_construction (c : call) : bool :=
  match c with
  | Boto3Client _ _ => true
  | _ => false
  end.

(** The calls made to get the client: none when one is cached. *)
Definition construction_calls (context : lambda_context) (cached : option client)
  : list call :=
  match cached with
  | Some _ => []
  | None =>
      [Boto3Client "bedrock-runtime"
         (extract_region_from_arn (invoked_function_arn context))]
  end.

(** More inputs to run the handlers on. *)
Module Cases.

(** A history that is a string. *)
Definition string_history_request : value :=
  VDict [("message", VStr "ping"); ("conversationHistory", VStr "earlier")].

(** A history with an element that has no role. *)
Definition roleless_turn_request : value :=
  VDict [("message", VStr "hello");
         ("conversationHistory", VList [VDict [("content", VStr "hi")]])].

Definition empty_history_request : value :=
  VDict [("message", VStr "ping"); ("conversationHistory", VList [])].

(** A model reply with a second content element and fields beside [text]. *)
Definition rich_reply : value :=
  VDict [("output",
          VDict [("message",
                  VDict [("role", VStr "assistant");
                         ("content", VList [VDict [("text", VStr "first")];
                                            VDict [("text", VStr "second")]])])]);
         ("usage", VDict [("inputTokens", VInt 3)])].

Definition documents : list value :=
  [Double.hello_request; Double.ping_request; Double.mixed_request;
   string_history_request; roleless_turn_request; empty_history_request;
   Double.hi_there_reply; Double.pong_reply; Double.no_time_reply;
   Double.empty_content_reply; rich_reply].

(** Both backends refuse. *)
Definition down_runtime : Runtime :=
  Double.runtime documents
    (Raise (LibraryError "ClientError" "An error occurred (ThrottlingException)"))
    (Raise (HTTPError 503 "Service Unavailable")).

(** Both backends up, on the larger set of documents. *)
Definition up_runtime : Runtime :=
  Double.runtime documents
    (Ok (Double.show rich_reply)) (Ok (Double.show Double.pong_reply)).

(** The HTTP service answers without [response_time], the model with an empty
    content list. *)
Definition lacking_runtime : Runtime :=
  Double.runtime documents
    (Ok (Double.show Double.empty_content_reply))
    (Ok (Double.show Double.no_time_reply)).

(** A base URL given with trailing slashes, and a [boto3] that cannot make
    the client. *)
Definition slashed_runtime : Runtime :=
  {| json_loads := Double.decode documents;
     json_dumps := Double.show;
     py_str := Double.show;
     MODEL_ID := "us.amazon.nova-lite-v1:0";
     FASTAPI_URL := "http://host:8000//";
     boto3_client := fun _ _ =>
       Raise (LibraryError "NoCredentialsError" "Unable to locate credentials");
     invoke_model := fun _ _ _ _ => Ok (Double.show Double.hi_there_reply);
     urlopen := fun _ => Ok (Double.show Double.pong_reply);
     stdout_encodes := fun c => negb (c =? Double.surrogate)%char;
     encode_error := fun _ =>
       "'utf-8' codec can't encode character: surrogates not allowed" |}.

(** An event as the gateway sends it for a signed-in user. *)
Definition signed_in_event (request : value) : value :=
  VDict [("requestContext",
          VDict [("authorizer",
                  VDict [("claims", VDict [("email", VStr "a@example.org")])])]);
         ("body", VStr (Double.show request))].

(** An authorizer entry without [claims]. *)
Definition claimless_event (request : value) : value :=
  VDict [("requestContext", VDict [("authorizer", VDict [])]);
         ("body", VStr (Double.show request))].

(** A text with a character the standard output of the doubles cannot
    encode. *)
Definition garbled : string := String Double.surrogate "".

(** An answer of the self-hosted backend that is a JSON string, not an
    object, and holds such a character. *)
Definition garbled_reply : value := VStr garbled.

Definition garbled_message_request : value := VDict [("message", VStr garbled)].

(** The self-hosted backend answers the garbled string; the model answers
    as usual. *)
Definition garbled_runtime : Runtime :=
  Double.runtime (garbled_reply :: garbled_message_request :: documents)
    (Ok (Double.show Double.hi_there_reply)) (Ok (Double.show garbled_reply)).

(** A signed-in user whose email holds such a character. *)
Definition garbled_claims_event (request : value) : value :=
  VDict [("requestContext",
          VDict [("authorizer", VDict [("claims", VDict [("email", VStr garbled)])])]);
         ("body", VStr (Double.show request))].

End Cases.

(** * Properties *)

(** ** Region extraction *)

Section RegionExtraction.

Lemma append_assoc (a b c : string) : (a ++ b) ++ c = a ++ (b ++ c).
Proof. induction a as [|x a IH]; simpl; [reflexivity | now rewrite IH]. Qed.

Lemma drop_prefix_some (p s r : string) :
  drop_prefix p s = Some r <-> s = p ++ r.
Proof.
  revert s; induction p as [|a p IH]; intros s; simpl.
  - split; intros H; [now inversion H | now subst].
  - destruct s as [|b s]; [split; discriminate|].
    destruct (Ascii.eqb_spec a b) as [->|Hab].
    + rewrite IH. split; intros H; [now subst | now inversion H].
    + split; [discriminate | intros H; inversion H; congruence].
Qed.

Lemma span_not_colon_split (s g tl : string) :
  span_not_colon s = (g, tl) ->
  s = g ++ tl /\ colon_free g = true
  /\ (tl = "" \/ exists tl', tl = String ":" tl').
Proof.
  revert g tl; induction s as [|c s IH]; intros g tl; simpl.
  - intros H; inversion H; subst; auto.
  - destruct (Ascii.eqb_spec c ":") as [->|Hc].
    + intros H; inversion H; subst. simpl. eauto.
    + destruct (span_not_colon s) as [g' tl'] eqn:E.
      intros H; inversion H; subst.
      destruct (IH _ _ eq_refl) as (-> & Hg & Htl).
      simpl. rewrite Hg. repeat split; auto.
      destruct (Ascii.eqb_spec c ":"); [contradiction | reflexivity].
Qed.

Lemma span_not_colon_run (g rest : string) :
  colon_free g = true ->
  span_not_colon (g ++ String ":" rest) = (g, String ":" rest).
Proof.
  induction g as [|c g IH]; simpl; intros H.
  - reflexivity.
  - apply andb_prop in H as [Hc Hg].
    destruct (c =? ":")%char; [discriminate|].
    now rewrite (IH Hg).
Qed.

Lemma match_arn_here_some (s g : string) :
  match_arn_here s = Some g <->
  exists rest, s = arn_pattern_prefix ++ g ++ ":" ++ rest
               /\ g <> "" /\ colon_free g = true.
Proof.
  unfold match_arn_here. split.
  - destruct (drop_prefix arn_pattern_prefix s) as [r|] eqn:Hd; [|discriminate].
    apply drop_prefix_some in Hd.
    destruct (span_not_colon r) as [g' tl] eqn:Hs.
    apply span_not_colon_split in Hs as (Hr & Hg & Htl).
    destruct g' as [|c g']; [discriminate|].
    destruct tl as [|t tl]; [discriminate|].
    intros H; inversion H; subst g.
    destruct Htl as [Htl|[tl' Htl]]; [discriminate|]. inversion Htl; subst.
    exists tl'. repeat split; auto. discriminate.
  - intros (rest & -> & Hne & Hg).
    replace (drop_prefix arn_pattern_prefix (arn_pattern_prefix ++ g ++ ":" ++ rest))
      with (Some (g ++ ":" ++ rest)) by (symmetry; now apply drop_prefix_some).
    change (":" ++ rest) with (String ":" rest).
    rewrite (span_not_colon_run g rest Hg).
    destruct g; [contradiction | reflexivity].
Qed.

Lemma re_search_arn_sound (s g : string) :
  re_search_arn s = Some g ->
  exists before rest, s = before ++ arn_pattern_prefix ++ g ++ ":" ++ rest
                      /\ g <> "" /\ colon_free g = true.
Proof.
  induction s as [|c s IH].
  - simpl. discriminate.
  - cbn [re_search_arn].
    destruct (match_arn_here (String c s)) as [g'|] eqn:Hm.
    + intros H; inversion H; subst g'.
      apply match_arn_here_some in Hm as (rest & Hs & Hne & Hg).
      exists "", rest. simpl. auto.
    + intros H. destruct (IH H) as (before & rest & -> & Hne & Hg).
      exists (String c before), rest. simpl. auto.
Qed.

Lemma re_search_arn_complete (s : string) :
  has_lambda_arn s -> exists g, re_search_arn s = Some g.
Proof.
  intros (before & region & rest & -> & Hne & Hg).
  induction before as [|c before IH].
  - assert (Hm : match_arn_here (arn_pattern_prefix ++ region ++ ":" ++ rest) = Some region)
      by (apply match_arn_here_some; eauto).
    exists region.
    change ("" ++ arn_pattern_prefix ++ region ++ ":" ++ rest)
      with (arn_pattern_prefix ++ region ++ ":" ++ rest).
    destruct (arn_pattern_prefix ++ region ++ ":" ++ rest) eqn:E;
      cbn [re_search_arn]; now rewrite Hm.
  - change (String c before ++ arn_pattern_prefix ++ region ++ ":" ++ rest)
      with (String c (before ++ arn_pattern_prefix ++ region ++ ":" ++ rest)).
    cbn [re_search_arn].
    destruct (match_arn_here _) as [g|]; eauto.
Qed.

Lemma re_search_arn_none (s : string) :
  re_search_arn s = None <-> ~ has_lambda_arn s.
Proof.
  split.
  - intros Hn Hs. destruct (re_search_arn_complete s Hs) as [g Hg]. congruence.
  - intros Hs. destruct (re_search_arn s) as [g|] eqn:E; [|reflexivity].
    exfalso. apply Hs. apply re_search_arn_sound in E as (b & r & ? & ? & ?).
    exists b, g, r. auto.
Qed.

(** C9. The ARN [arn:aws:lambda:eu-west-1:123456789012:function:foo] gives
    the region [eu-west-1], and every string that has no substring
    [arn:aws:lambda:<region>:] gives the default [us-east-1]. *)
Theorem C9_extract_region_from_arn :
  extract_region_from_arn "arn:aws:lambda:eu-west-1:123456789012:function:foo"
  = "eu-west-1"
  /\ forall arn, ~ has_lambda_arn arn -> extract_region_from_arn arn = "us-east-1".
Proof.
  split; [reflexivity|].
  intros arn H. unfold extract_region_from_arn.
  now rewrite (proj2 (re_search_arn_none arn) H).
Qed.

Lemma C9_extract_region_from_arn_witness :
  ~ has_lambda_arn "my-function"
  /\ extract_region_from_arn "my-function" = "us-east-1".
Proof.
  assert (H : ~ has_lambda_arn "my-function")
    by (apply re_search_arn_none; vm_compute; reflexivity).
  split; [exact H | exact (proj2 C9_extract_region_from_arn "my-function" H)].
Defined.

End RegionExtraction.

(** ** Sequencing *)

Lemma and_then_ok {A B} (r : result A) (k : A -> result B) (b : B) :
  and_then r k = Ok b -> exists a, r = Ok a /\ k a = Ok b.
Proof. destruct r as [a|e]; simpl; [eauto | discriminate]. Qed.

Lemma and_then_raise {A B} (r : result A) (k : A -> result B) (e : exn) :
  and_then r k = Raise e -> r = Raise e \/ exists a, r = Ok a /\ k a = Raise e.
Proof. destruct r as [a|e']; simpl; [eauto | intros H; inversion H; auto]. Qed.

Ltac invert_ok H :=
  let a := fresh "x" in
  let Ha := fresh "H" a in
  apply and_then_ok in H as (a & Ha & H).

Ltac invert_raise H :=
  let a := fresh "x" in
  let Ha := fresh "H" a in
  apply and_then_raise in H as [H|(a & Ha & H)].

Lemma getitem_ok (v : value) (k : string) (x : value) :
  getitem v k = Ok x <-> exists d, v = VDict d /\ lookup k d = Some x.
Proof.
  split.
  - destruct v; simpl; try discriminate.
    destruct (lookup k entries) eqn:E; [|discriminate].
    intros H; inversion H; subst; eauto.
  - intros (d & -> & H). simpl. now rewrite H.
Qed.

Lemma has_key_getitem (v : value) (k : string) :
  has_key v k = false -> exists e, getitem v k = Raise e.
Proof.
  destruct v; simpl; eauto.
  destruct (lookup k entries); [discriminate | eauto].
Qed.

(** ** What can be printed *)

Section Printable.

Variable rt : Runtime.

Lemma printable_app (a b : string) :
  printable rt (a ++ b) = printable rt a && printable rt b.
Proof.
  induction a as [|c a IH]; simpl; [reflexivity|].
  rewrite IH. now rewrite andb_assoc.
Qed.

Lemma getitem_raise (v : value) (k : string) (e : exn) :
  getitem v k = Raise e ->
  printable rt (repr_key k) = true ->
  error_printable rt e = true.
Proof.
  destruct v; simpl; intros H Hk; try (inversion H; subst; reflexivity).
  destruct (lookup k entries); inversion H; subst. exact Hk.
Qed.

Lemma getitem0_raise (v : value) (e : exn) :
  getitem0 v = Raise e -> error_printable rt e = true.
Proof.
  destruct v as [| | | |s|l|d]; simpl; intros H; try (inversion H; subst; reflexivity).
  - destruct s; inversion H; subst; reflexivity.
  - destruct l; inversion H; subst; reflexivity.
Qed.

Lemma get_raise (v : value) (k : string) (default : value) (e : exn) :
  get v k default = Raise e -> error_printable rt e = true.
Proof.
  destruct v; simpl; intros H; try (inversion H; subst; reflexivity).
  destruct (lookup k entries); discriminate.
Qed.

Lemma copy_raise (v : value) (e : exn) :
  copy v = Raise e -> error_printable rt e = true.
Proof. destruct v; simpl; intros H; inversion H; subst; reflexivity. Qed.

Lemma append_raise (v x : value) (e : exn) :
  Py.append v x = Raise e -> error_printable rt e = true.
Proof. destruct v; simpl; intros H; inversion H; subst; reflexivity. Qed.

Lemma contains_raise (k : string) (v : value) (e : exn) :
  contains k v = Raise e -> error_printable rt e = true.
Proof. destruct v; simpl; intros H; inversion H; subst; reflexivity. Qed.

Lemma iterate_raise (v : value) (e : exn) :
  iterate v = Raise e -> error_printable rt e = true.
Proof. destruct v; simpl; intros H; inversion H; subst; reflexivity. Qed.

Lemma from_library_raise {A} (r : library_result A) (e : exn) :
  from_library r = Raise e -> error_printable rt e = true.
Proof. destruct r; simpl; intros H; inversion H; subst; reflexivity. Qed.

Lemma print_value_raise (label : string) (v : value) (e : exn) :
  print_value rt label v = Raise e -> error_printable rt e = true.
Proof.
  unfold print_value. destruct (can_show rt v); intros H; inversion H; subst.
  reflexivity.
Qed.

Lemma print_value_ok (label : string) (v : value) :
  can_show rt v = true -> print_value rt label v = Ok tt.
Proof. unfold print_value. now intros ->. Qed.

(** An error that can be printed is answered by the failure response. *)
Lemma handled_printable (e : exn) :
  error_printable rt e = true -> handled rt e = Ok (failure_response rt e).
Proof. unfold handled, print_error. now intros ->. Qed.

Lemma except_arm_run (e : exn) (w : world) :
  except_arm rt e w = (w, handled rt e).
Proof.
  unfold except_arm, handled, bind, lift, ret.
  destruct (print_error rt e) as [[]|e']; reflexivity.
Qed.

Lemma json_loads_value_raise (raw : value) (e : exn) :
  json_loads_value rt raw = Raise e -> error_printable rt e = true.
Proof.
  destruct raw; simpl; intros H; try (inversion H; subst; reflexivity).
  now apply from_library_raise in H.
Qed.

Lemma parse_request_raise (event : value) (e : exn) :
  parse_request rt event = Raise e -> error_printable rt e = true.
Proof.
  unfold parse_request. intros H.
  invert_raise H; [eapply getitem_raise; eauto; reflexivity|].
  invert_raise H; [eapply json_loads_value_raise; eauto|].
  invert_raise H; [eapply getitem_raise; eauto; reflexivity|].
  invert_raise H; [eapply get_raise; eauto|].
  discriminate.
Qed.

End Printable.

Create HintDb raises.
#[export] Hint Resolve getitem_raise getitem0_raise get_raise copy_raise append_raise
  contains_raise iterate_raise from_library_raise print_value_raise
  json_loads_value_raise parse_request_raise : raises.
#[export] Hint Extern 1 (printable _ _ = true) => reflexivity : raises.

(** From a sequence of steps that raised to the step that did. *)
Ltac printable_raise H :=
  first
    [ discriminate H
    | solve [inversion H; subst; reflexivity]
    | solve [eauto 3 with raises]
    | match type of H with
      | (if ?b then _ else _) = Raise _ => destruct b; printable_raise H
      end
    | let a := fresh "x" in
      let Ha := fresh "H" a in
      apply and_then_raise in H as [H|(a & Ha & H)]; printable_raise H ].
Section Running.

Variable rt : Runtime.

Lemma from_library_ok {A} (r : library_result A) (a : A) :
  from_library r = Ok a <-> r = Ok a.
Proof. destruct r; simpl; split; intros H; inversion H; reflexivity. Qed.

Lemma parse_request_ok (event message history : value) :
  parse_request rt event = Ok (message, history) <->
  exists request,
    decoded_body rt event request
    /\ getitem request "message" = Ok message
    /\ get request "conversationHistory" (VList []) = Ok history.
Proof.
  unfold parse_request. split.
  - intros H. invert_ok H. invert_ok H. invert_ok H. invert_ok H.
    inversion H; subst.
    apply getitem_ok in Hx as (d & -> & Hd).
    destruct x; try discriminate. simpl in Hx0. apply from_library_ok in Hx0.
    exists x0. unfold decoded_body. eauto 10.
  - intros (request & (d & text & -> & Hb & Hl) & Hm & Hh).
    simpl. rewrite Hb. simpl. rewrite Hl. simpl. rewrite Hm. simpl.
    now rewrite Hh.
Qed.

(** The self-hosted [try] in one step: a request that cannot be parsed
    raises with nothing sent; otherwise one POST is logged and its answer
    decides the rest. *)
Lemma lambda_fastapi_try_run (event : value) (w : world) :
  lambda_fastapi_try rt event w =
  match parse_request rt event with
  | Raise e => (w, Raise e)
  | Ok request =>
      (logged w (UrlOpen (fastapi_request rt (fst request))),
       let* resp_body := from_library (urlopen rt (fastapi_request rt (fst request))) in
       fastapi_finish rt (snd request) resp_body)
  end.
Proof.
  unfold lambda_fastapi_try, bind, lift, call_urlopen, try_except, log, raise, logged.
  destruct (parse_request rt event) as [request|e]; [|reflexivity].
  cbn. destruct (urlopen rt (fastapi_request rt (fst request))); reflexivity.
Qed.

Lemma fastapi_finish_ok (history : value) (text : string) (r : response) :
  fastapi_finish rt history text = Ok r ->
  exists api reply time items,
    json_loads rt text = Ok api
    /\ getitem api "generated_text" = Ok reply
    /\ getitem api "response_time" = Ok time
    /\ history = VList items
    /\ r = fastapi_success rt reply time (VList (items ++ [turn "assistant" reply])).
Proof.
  unfold fastapi_finish. intros H.
  invert_ok H. apply from_library_ok in Hx. invert_ok H. destruct x0; [discriminate|].
  invert_ok H. invert_ok H. invert_ok H. invert_ok H.
  inversion H; subst.
  destruct history; try discriminate; simpl in Hx3; inversion Hx3; subst;
    simpl in Hx4; try discriminate.
  inversion Hx4; subst. eauto 10.
Qed.

(** The one error of [fastapi_finish] that the [except] arm may be unable to
    print: the answer is a string, and that string is in the text. *)
Lemma fastapi_finish_raise (history : value) (text : string) (e : exn) :
  fastapi_finish rt history text = Raise e ->
  error_printable rt e = true
  \/ exists s,
       json_loads rt text = Ok (VStr s) /\ printable rt s = false
       /\ e = ExceptionOf "Unexpected response from FastAPI: " (VStr s) s.
Proof.
  unfold fastapi_finish. intros H.
  invert_raise H; [left; eapply from_library_raise; eauto|].
  apply from_library_ok in Hx.
  invert_raise H.
  { left. unfold fields_missing in H.
    invert_raise H; [eapply contains_raise; eauto|].
    destruct (negb x0); [discriminate|].
    invert_raise H; [eapply contains_raise; eauto | discriminate]. }
  destruct x0.
  - inversion H; subst; clear H. destruct x; try (left; reflexivity).
    simpl. destruct (printable rt s) eqn:Hs; [left; reflexivity|].
    right. exists s. auto.
  - left.
    invert_raise H; [eapply getitem_raise; eauto; reflexivity|].
    invert_raise H; [eapply getitem_raise; eauto; reflexivity|].
    invert_raise H; [eapply copy_raise; eauto|].
    invert_raise H; [eapply append_raise; eauto | discriminate].
Qed.

(** What the self-hosted handler returns and leaves behind. *)
Lemma lambda_fastapi_handler_run (event : value) (context : lambda_context) (w : world) :
  lambda_fastapi_handler rt event context w =
  match parse_request rt event with
  | Raise e => (w, Ok (failure_response rt e))
  | Ok request =>
      (logged w (UrlOpen (fastapi_request rt (fst request))),
       match (let* resp_body :=
                from_library (urlopen rt (fastapi_request rt (fst request))) in
              fastapi_finish rt (snd request) resp_body) with
       | Ok r => Ok r
       | Raise e => handled rt e
       end)
  end.
Proof.
  unfold lambda_fastapi_handler, try_except. rewrite lambda_fastapi_try_run.
  destruct (parse_request rt event) as [request|e] eqn:Hp.
  - destruct (let* resp_body :=
                from_library (urlopen rt (fastapi_request rt (fst request))) in
              fastapi_finish rt (snd request) resp_body); [reflexivity|].
    apply except_arm_run.
  - rewrite except_arm_run, handled_printable; [reflexivity|].
    eapply parse_request_raise; eauto.
Qed.

Lemma handled_ok (e : exn) (r : response) :
  handled rt e = Ok r -> r = failure_response rt e.
Proof.
  unfold handled. intros H. invert_ok H. now inversion H.
Qed.

(** A reply that lacks one of the two fields makes [fastapi_finish] raise. *)
Lemma fastapi_finish_lacking (history api : value) (text : string) :
  json_loads rt text = Ok api ->
  has_key api "generated_text" = false \/ has_key api "response_time" = false ->
  exists e, fastapi_finish rt history text = Raise e.
Proof.
  intros Hl Hk. unfold fastapi_finish. rewrite Hl. simpl.
  unfold fields_missing.
  destruct (contains "generated_text" api) as [[|]|e] eqn:Ht; simpl; eauto.
  destruct (contains "response_time" api) as [[|]|e] eqn:Hr; simpl; eauto.
  destruct Hk as [Hk|Hk]; apply has_key_getitem in Hk as [e He].
  - rewrite He. simpl. eauto.
  - destruct (getitem api "generated_text"); simpl; eauto.
    rewrite He. simpl. eauto.
Qed.

End Running.

(** ** The self-hosted path *)

(** C8. Two events with the same [message] make [lambda_fastapi_handler] send
    the same single request, whose payload is [{prompt: message,
    max_new_tokens: 512, do_sample: true, temperature: 0.7, top_p: 0.9}],
    whatever their [conversationHistory] fields hold. *)
Theorem C8_fastapi_payload_ignores_history
  (rt : Runtime) (event1 event2 : value) (context1 context2 : lambda_context)
  (cached1 cached2 : option client)
  (request1 request2 : list (string * value)) (message : value) :
  decoded_body rt event1 (VDict request1) ->
  decoded_body rt event2 (VDict request2) ->
  lookup "message" request1 = Some message ->
  lookup "message" request2 = Some message ->
  let sent :=
    UrlOpen {| url := rstrip_slash (FASTAPI_URL rt) ++ "/generate";
               data := json_dumps rt
                         (VDict [("prompt", message);
                                 ("max_new_tokens", VInt 512);
                                 ("do_sample", VBool true);
                                 ("temperature", VFloat (Finite false 7 (-1)));
                                 ("top_p", VFloat (Finite false 9 (-1)))]);
               request_headers := [("Content-Type", "application/json")];
               method := "POST" |} in
  calls (fst (lambda_fastapi_handler rt event1 context1 (start cached1))) = [sent]
  /\ calls (fst (lambda_fastapi_handler rt event2 context2 (start cached2))) = [sent].
Proof.
  intros H1 H2 Hm1 Hm2 sent.
  assert (P : forall event request cached context,
             decoded_body rt event (VDict request) ->
             lookup "message" request = Some message ->
             calls (fst (lambda_fastapi_handler rt event context (start cached))) = [sent]).
  { intros event request cached context Hd Hm.
    rewrite lambda_fastapi_handler_run.
    assert (Hp : parse_request rt event
                 = Ok (message,
                       match lookup "conversationHistory" request with
                       | Some h => h
                       | None => VList []
                       end)).
    { apply parse_request_ok. exists (VDict request). repeat split; auto.
      - simpl. now rewrite Hm.
      - simpl. destruct (lookup "conversationHistory" request); reflexivity. }
    rewrite Hp. reflexivity. }
  split; eauto.
Qed.

Lemma C8_fastapi_payload_ignores_history_witness :
  calls (fst (lambda_fastapi_handler Double.chat_runtime
                (Double.event_of Double.ping_request) Double.context (start None)))
  = calls (fst (lambda_fastapi_handler Double.chat_runtime
                  (Double.event_of Double.other_history_request)
                  Double.context (start None))).
Proof.
  destruct (C8_fastapi_payload_ignores_history Double.chat_runtime
              (Double.event_of Double.ping_request)
              (Double.event_of Double.other_history_request)
              Double.context Double.context None None
              [("message", VStr "ping")]
              [("message", VStr "ping");
               ("conversationHistory", VList Double.mixed_history)]
              (VStr "ping")) as [H1 H2].
  - do 2 eexists. repeat split; reflexivity.
  - do 2 eexists. repeat split; reflexivity.
  - reflexivity.
  - reflexivity.
  - now rewrite H1, H2.
Defined.

(** C6, where the code fails it.  The self-hosted backend answers the JSON
    string [Cases.garbled], which has neither field; the handler raises the
    [Exception] of line 60 with that string in its text, the [print] of line
    88 cannot encode it, and the [UnicodeEncodeError] leaves the handler: no
    500 response is returned. *)
Theorem C6_reply_without_fields_not_answered :
  json_loads Cases.garbled_runtime (Double.show Cases.garbled_reply)
  = Ok Cases.garbled_reply
  /\ has_key Cases.garbled_reply "generated_text" = false
  /\ has_key Cases.garbled_reply "response_time" = false
  /\ snd (lambda_fastapi_handler Cases.garbled_runtime
            (Double.event_of Double.ping_request) Double.context (start None))
     = Raise (unicode_encode_error Cases.garbled_runtime
                ("Unexpected response from FastAPI: " ++ Cases.garbled)).
Proof. repeat split. Qed.

(** C3. Whenever [lambda_fastapi_handler] succeeds, the [conversationHistory]
    of its body is the history of the request (the empty list when the
    request has none) followed by the one turn [{role: assistant, content:
    generated_text}]; the user turn of the call is not in it. *)
Theorem C3_fastapi_history_gets_assistant_turn_only
  (rt : Runtime) (event : value) (context : lambda_context) (cached : option client)
  (r : response) :
  let out := lambda_fastapi_handler rt event context (start cached) in
  snd out = Ok r ->
  statusCode r = 200%Z ->
  exists request message history text api reply time,
    decoded_body rt event request
    /\ getitem request "message" = Ok message
    /\ get request "conversationHistory" (VList []) = Ok (VList history)
    /\ urlopen rt (fastapi_request rt message) = Ok text
    /\ json_loads rt text = Ok api
    /\ getitem api "generated_text" = Ok reply
    /\ getitem api "response_time" = Ok time
    /\ body r
       = json_dumps rt
           (VDict [("success", VBool true);
                   ("response", reply);
                   ("response_time", time);
                   ("conversationHistory",
                    VList (history ++ [VDict [("role", VStr "assistant");
                                              ("content", reply)]]))]).
Proof.
  intros out Hr Hs. subst out. rewrite lambda_fastapi_handler_run in Hr.
  destruct (parse_request rt event) as [[message history]|e] eqn:Hp;
    [|inversion Hr; subst; discriminate].
  cbn [fst snd] in *.
  destruct (urlopen rt (fastapi_request rt message)) as [text|e] eqn:Hu;
    [|apply handled_ok in Hr; subst; discriminate].
  cbn [from_library and_then] in *.
  destruct (fastapi_finish rt history text) as [r'|e] eqn:Hf;
    [|apply handled_ok in Hr; subst; discriminate].
  inversion Hr; subst r'; clear Hr.
  apply fastapi_finish_ok in Hf as (api & reply & time & items & Hl & Hg & Ht & -> & ->).
  apply parse_request_ok in Hp as (request & Hd & Hm & Hh).
  exists request, message, items, text, api, reply, time.
  repeat split; auto.
Qed.

Lemma C3_fastapi_history_gets_assistant_turn_only_witness :
  exists request message history text api reply time,
    decoded_body Double.chat_runtime (Double.event_of Double.other_history_request) request
    /\ getitem request "message" = Ok message
    /\ get request "conversationHistory" (VList []) = Ok (VList history)
    /\ urlopen Double.chat_runtime (fastapi_request Double.chat_runtime message) = Ok text
    /\ json_loads Double.chat_runtime text = Ok api
    /\ getitem api "generated_text" = Ok reply
    /\ getitem api "response_time" = Ok time
    /\ body (fastapi_success Double.chat_runtime (VStr "pong")
               (VFloat (Finite false 42 (-2)))
               (VList (Double.mixed_history ++ [turn "assistant" (VStr "pong")])))
       = json_dumps Double.chat_runtime
           (VDict [("success", VBool true);
                   ("response", reply);
                   ("response_time", time);
                   ("conversationHistory",
                    VList (history ++ [VDict [("role", VStr "assistant");
                                              ("content", reply)]]))]).
Proof.
  apply (C3_fastapi_history_gets_assistant_turn_only Double.chat_runtime
           (Double.event_of Double.other_history_request) Double.context None
           (fastapi_success Double.chat_runtime (VStr "pong")
              (VFloat (Finite false 42 (-2)))
              (VList (Double.mixed_history ++ [turn "assistant" (VStr "pong")])))).
  - reflexivity.
  - reflexivity.
Defined.

(** The happy path of the specification, run on the doubles: [ping] is
    answered [pong] in 0.42 s and the history returned holds the assistant
    turn alone. *)
Example fastapi_ping_pong :
  snd (lambda_fastapi_handler Double.chat_runtime
         (Double.event_of Double.ping_request) Double.context (start None))
  = Ok {| statusCode := 200;
          headers := cors_headers;
          body := Double.show
                    (VDict [("success", VBool true);
                            ("response", VStr "pong");
                            ("response_time", VFloat (Finite false 42 (-2)));
                            ("conversationHistory",
                             VList [turn "assistant" (VStr "pong")])]) |}.
Proof. reflexivity. Qed.

(** ** The messages sent to the hosted model *)

Lemma bedrock_message_of_turn (t : value) :
  is_turn t = true ->
  bedrock_message t = Ok (if chat_role t then Some (to_hosted t) else None).
Proof.
  unfold is_turn, chat_role, to_hosted, bedrock_message, role_of, content_of.
  destruct t; try discriminate. simpl.
  destruct (lookup "role" entries) as [r|]; [|discriminate]. simpl.
  destruct r; simpl; try reflexivity.
  destruct (String.eqb_spec s "user") as [->|Hu]; simpl.
  - destruct (lookup "content" entries); [reflexivity | discriminate].
  - destruct (String.eqb_spec s "assistant") as [->|Ha]; simpl; [|reflexivity].
    destruct (lookup "content" entries); [reflexivity | discriminate].
Qed.

Lemma bedrock_message_ok (t : value) (m : option value) :
  bedrock_message t = Ok m -> is_turn t = true.
Proof.
  unfold is_turn, chat_role, bedrock_message, role_of, content_of.
  destruct t; try discriminate. simpl.
  destruct (lookup "role" entries) as [r|]; [|discriminate]. simpl.
  destruct (is_str "user" r); simpl.
  - destruct (lookup "content" entries); [reflexivity | discriminate].
  - destruct (is_str "assistant" r); simpl; [|reflexivity].
    destruct (lookup "content" entries); [reflexivity | discriminate].
Qed.

Lemma bedrock_messages_of_turns (turns : list value) :
  forallb is_turn turns = true ->
  bedrock_messages turns = Ok (map to_hosted (filter chat_role turns)).
Proof.
  induction turns as [|t turns IH]; simpl; [reflexivity|].
  intros H. apply andb_prop in H as [Ht Hts].
  rewrite (bedrock_message_of_turn t Ht), (IH Hts). simpl.
  destruct (chat_role t); reflexivity.
Qed.

Lemma bedrock_messages_ok (turns mapped : list value) :
  bedrock_messages turns = Ok mapped ->
  forallb is_turn turns = true /\ mapped = map to_hosted (filter chat_role turns).
Proof.
  intros H.
  assert (Ht : forallb is_turn turns = true).
  { revert mapped H. induction turns as [|t turns IH]; simpl; [reflexivity|].
    intros mapped H. invert_ok H. invert_ok H.
    rewrite (bedrock_message_ok _ _ Hx), (IH _ Hx0). reflexivity. }
  split; [exact Ht|].
  rewrite (bedrock_messages_of_turns turns Ht) in H. now inversion H.
Qed.

Lemma dropped_count (turns : list value) :
  length (filter (fun t => negb (chat_role t)) turns)
  = length turns - length (map to_hosted (filter chat_role turns)).
Proof.
  rewrite length_map.
  assert (H : length (filter chat_role turns)
              + length (filter (fun t => negb (chat_role t)) turns) = length turns).
  { induction turns as [|t turns IH]; simpl; [reflexivity|].
    destruct (chat_role t); simpl; lia. }
  lia.
Qed.

(** ** The hosted path *)

Ltac raised :=
  solve [ intros; discriminate
        | intros; eexists; split; [reflexivity | simpl; discriminate] ].

Lemma extract_reply_lacking (reply_doc : value) :
  bears_reply_text reply_doc = false ->
  exists e, extract_reply reply_doc = Raise e /\ str_exn e <> "".
Proof.
  unfold bears_reply_text, extract_reply.
  destruct reply_doc as [| | | | | |d]; simpl; try raised.
  destruct (lookup "output" d) as [output|]; simpl; [|raised].
  destruct (truthy output) eqn:To; simpl; [|raised].
  destruct output as [| | | | | |od]; simpl; try raised.
  destruct (lookup "message" od) as [message|]; simpl; [|raised].
  destruct (truthy message) eqn:Tm; simpl; [|raised].
  destruct message as [| | | | | |md]; simpl; try raised.
  destruct (lookup "content" md) as [content|]; simpl; [|raised].
  destruct (truthy content) eqn:Tc; simpl; [|raised].
  destruct content as [| | | |s|l|cd]; simpl; try raised.
  - destruct s; simpl; raised.
  - destruct l as [|first l]; simpl; [raised|].
    destruct first as [| | | | | |fd]; simpl; try raised.
    destruct (lookup "text" fd); simpl; raised.
Qed.

Section Hosted.

Variable rt : Runtime.

(** Every error of the steps of the hosted path has a text the standard
    output can encode: they name types and the keys of the program, or come
    from a library. *)
Lemma extract_reply_raise (reply_doc : value) (e : exn) :
  extract_reply reply_doc = Raise e -> error_printable rt e = true.
Proof. unfold extract_reply. intros H. printable_raise H. Qed.

Lemma hosted_finish_raise (messages : value) (text : string) (e : exn) :
  hosted_finish rt messages text = Raise e -> error_printable rt e = true.
Proof.
  unfold hosted_finish. intros H.
  pose proof extract_reply_raise as Hx. printable_raise H.
Qed.

Lemma read_user_info_raise (event : value) (e : exn) :
  read_user_info rt event = Raise e -> error_printable rt e = true.
Proof. unfold read_user_info. intros H. printable_raise H. Qed.

Lemma print_processing_raise (message : value) (e : exn) :
  print_processing rt message = Raise e -> error_printable rt e = true.
Proof. unfold print_processing. intros H. printable_raise H. Qed.

Lemma print_processing_ok (message : value) :
  print_processing rt message = Ok tt <->
  can_show rt message = true /\ printable rt (MODEL_ID rt) = true.
Proof.
  unfold print_processing, print_value. simpl.
  destruct (can_show rt message); simpl; [|split; [discriminate | intros [? _]; discriminate]].
  destruct (printable rt (MODEL_ID rt)); split; auto; try discriminate.
  intros [_ ?]; discriminate.
Qed.

Lemma bedrock_messages_raise (turns : list value) (e : exn) :
  bedrock_messages turns = Raise e -> error_printable rt e = true.
Proof.
  induction turns as [|t turns IH]; simpl; [discriminate|]. intros H.
  unfold bedrock_message in H. printable_raise H.
Qed.

Lemma hosted_prepare_raise (event : value) (e : exn) :
  hosted_prepare rt event = Raise e -> error_printable rt e = true.
Proof.
  unfold hosted_prepare, assemble_messages, map_messages. intros H.
  pose proof read_user_info_raise as H1. pose proof print_processing_raise as H2.
  pose proof bedrock_messages_raise as H3. printable_raise H.
Qed.

Lemma acquire_client_run (context : lambda_context) (w : world) :
  acquire_client rt context w =
  match bedrock_client w with
  | Some _ => (w, Ok tt)
  | None =>
      let region := extract_region_from_arn (invoked_function_arn context) in
      match boto3_client rt "bedrock-runtime" region with
      | Ok c =>
          ({| bedrock_client := Some c;
              calls := (calls w ++ [Boto3Client "bedrock-runtime" region])%list |},
           print_value rt "Initialized Bedrock client in region: " (VStr region))
      | Raise e => (logged w (Boto3Client "bedrock-runtime" region), Raise (Library e))
      end
  end.
Proof.
  unfold acquire_client, bind, read_bedrock_client, log, lift, write_bedrock_client,
    ret, logged.
  destruct (bedrock_client w) eqn:E; [reflexivity|]. cbn. rewrite E.
  destruct (boto3_client rt _ _); reflexivity.
Qed.

Lemma acquire_client_raise (context : lambda_context) (w w1 : world) (e : exn) :
  acquire_client rt context w = (w1, Raise e) -> error_printable rt e = true.
Proof.
  rewrite acquire_client_run.
  destruct (bedrock_client w); [discriminate|]. cbv zeta.
  destruct (boto3_client rt _ _).
  - intros H; inversion H. eapply print_value_raise; eauto.
  - intros H; inversion H; subst. reflexivity.
Qed.

(** Getting the client, from the start of an invocation. *)
Lemma acquire_client_from_start (context : lambda_context) (cached : option client) :
  acquire_client rt context (start cached)
  = ({| bedrock_client := client_after rt context cached;
        calls := construction_calls context cached |},
     let* c := client_ready rt context cached in Ok tt).
Proof.
  rewrite acquire_client_run.
  unfold start, client_after, client_ready, construction_calls, logged. simpl.
  destruct cached as [c|]; [reflexivity|].
  destruct (boto3_client rt _ _) as [c|e]; simpl; [|reflexivity].
  destruct (print_value rt _ _) as [[]|e]; reflexivity.
Qed.

Lemma client_ready_after (context : lambda_context) (cached : option client) (c : client) :
  client_ready rt context cached = Ok c -> client_after rt context cached = Some c.
Proof.
  unfold client_ready, client_after. destruct cached as [c'|].
  - intros H; now inversion H.
  - cbv zeta. destruct (boto3_client rt _ _) as [c'|e]; simpl; [|discriminate].
    destruct (print_value rt _ _); simpl; intros H; inversion H. reflexivity.
Qed.

Lemma client_ready_in_use (context : lambda_context) (cached : option client) (c : client) :
  client_ready rt context cached = Ok c <->
  client_in_use rt context cached = Ok c
  /\ (cached = None ->
      printable rt (extract_region_from_arn (invoked_function_arn context)) = true).
Proof.
  unfold client_ready, client_in_use, print_value. destruct cached as [c'|]; simpl.
  - split; [intros H; split; [exact H | discriminate] | intros [H _]; exact H].
  - destruct (boto3_client rt _ _) as [c'|e]; simpl.
    + destruct (printable rt _); simpl.
      * split; [intros H; split; [exact H | reflexivity] | intros [H _]; exact H].
      * split; [discriminate | intros [_ H]; discriminate (H eq_refl)].
    + split; [discriminate | intros [H _]; discriminate].
Qed.

Lemma client_ready_raise (context : lambda_context) (cached : option client) (e : exn) :
  client_ready rt context cached = Raise e -> error_printable rt e = true.
Proof.
  unfold client_ready. destruct cached; [discriminate|]. cbv zeta. intros H.
  printable_raise H.
Qed.

(** The hosted [try] in one step. *)
Lemma lambda_try_run (event : value) (context : lambda_context) (w : world) :
  lambda_try rt event context w =
  match acquire_client rt context w with
  | (w1, Raise e) => (w1, Raise e)
  | (w1, Ok _) =>
      match hosted_prepare rt event with
      | Raise e => (w1, Raise e)
      | Ok prepared =>
          match bedrock_client w1 with
          | None => (w1, Raise (no_attribute VNone "invoke_model"))
          | Some c =>
              let request_body := json_dumps rt (request_payload (snd prepared)) in
              (logged w1 (InvokeModel c (MODEL_ID rt) request_body "application/json"),
               let* reply_text :=
                 from_library
                   (invoke_model rt c (MODEL_ID rt) request_body "application/json") in
               hosted_finish rt (fst prepared) reply_text)
          end
      end
  end.
Proof.
  unfold lambda_try, hosted_prepare.
  unfold bind at 1. destruct (acquire_client rt context w) as [w1 [[]|e]]; [|reflexivity].
  unfold bind, lift, call_invoke_model, read_bedrock_client, log, raise, logged.
  destruct (read_user_info rt event) as [[]|e]; [|reflexivity]. cbn [and_then].
  destruct (parse_request rt event) as [request|e]; [|reflexivity]. cbn [and_then].
  destruct (print_processing rt (fst request)) as [[]|e]; [|reflexivity]. cbn [and_then].
  destruct (assemble_messages (fst request) (snd request)) as [messages|e];
    [|reflexivity]. cbn [and_then].
  destruct (map_messages messages) as [mapped|e]; [|reflexivity]. cbn.
  destruct (bedrock_client w1) as [c|] eqn:E; [|reflexivity]. cbn. rewrite ?E.
  destruct (invoke_model rt c _ _ _); reflexivity.
Qed.

Lemma hosted_finish_ok (messages : value) (text : string) (r : response) :
  hosted_finish rt messages text = Ok r ->
  exists reply_doc reply items,
    json_loads rt text = Ok reply_doc
    /\ extract_reply reply_doc = Ok reply
    /\ messages = VList items
    /\ r = hosted_success rt reply (VList (items ++ [turn "assistant" reply])).
Proof.
  unfold hosted_finish. intros H.
  invert_ok H. apply from_library_ok in Hx. invert_ok H. invert_ok H.
  inversion H; subst.
  destruct messages; try discriminate. inversion Hx1; subst. eauto 10.
Qed.

(** What the hosted handler returns and leaves behind.  It returns in every
    case: no error of its [try] has a text that cannot be printed. *)
Lemma lambda_handler_run (event : value) (context : lambda_context) (w : world) :
  lambda_handler rt event context w =
  match acquire_client rt context w with
  | (w1, Raise e) => (w1, Ok (failure_response rt e))
  | (w1, Ok _) =>
      match hosted_prepare rt event with
      | Raise e => (w1, Ok (failure_response rt e))
      | Ok prepared =>
          match bedrock_client w1 with
          | None => (w1, Ok (failure_response rt (no_attribute VNone "invoke_model")))
          | Some c =>
              let request_body := json_dumps rt (request_payload (snd prepared)) in
              (logged w1 (InvokeModel c (MODEL_ID rt) request_body "application/json"),
               Ok match (let* reply_text :=
                           from_library
                             (invoke_model rt c (MODEL_ID rt) request_body
                                "application/json") in
                         hosted_finish rt (fst prepared) reply_text) with
                  | Ok r => r
                  | Raise e => failure_response rt e
                  end)
          end
      end
  end.
Proof.
  unfold lambda_handler, try_except. rewrite lambda_try_run.
  destruct (acquire_client rt context w) as [w1 [[]|e]] eqn:Ha.
  - destruct (hosted_prepare rt event) as [prepared|e] eqn:Hp.
    + destruct (bedrock_client w1) as [c|].
      * cbv zeta.
        destruct (let* reply_text := from_library (invoke_model rt c _ _ _) in _)
          as [r|e] eqn:Hf; [reflexivity|].
        rewrite except_arm_run, handled_printable; [reflexivity|].
        invert_raise Hf; [eapply from_library_raise; eauto|].
        eapply hosted_finish_raise; eauto.
      * now rewrite except_arm_run, handled_printable.
    + rewrite except_arm_run, handled_printable; [reflexivity|].
      eapply hosted_prepare_raise; eauto.
  - rewrite except_arm_run, handled_printable; [reflexivity|].
    eapply acquire_client_raise; eauto.
Qed.

End Hosted.

Section HostedRuns.

Variable rt : Runtime.

Lemma is_turn_turn (role : string) (content : value) : is_turn (turn role content) = true.
Proof.
  unfold is_turn, chat_role, role_of, content_of, turn. simpl.
  destruct (_ || _); reflexivity.
Qed.

Lemma hosted_prepare_ok (event messages : value) (mapped : list value) :
  hosted_prepare rt event = Ok (messages, mapped) ->
  exists request message history,
    read_user_info rt event = Ok tt
    /\ decoded_body rt event request
    /\ getitem request "message" = Ok message
    /\ get request "conversationHistory" (VList []) = Ok (VList history)
    /\ messages = VList (history ++ [turn "user" message])
    /\ mapped = map to_hosted (filter chat_role (history ++ [turn "user" message])).
Proof.
  unfold hosted_prepare. intros H.
  invert_ok H. invert_ok H. invert_ok H. invert_ok H. invert_ok H.
  inversion H; subst; clear H.
  destruct x. destruct x0 as [message history].
  apply parse_request_ok in Hx0 as (request & Hd & Hm & Hh).
  unfold assemble_messages in Hx2. invert_ok Hx2. simpl in Hx0, Hx2.
  destruct history; try discriminate; simpl in Hx0; inversion Hx0; subst;
    simpl in Hx2; try discriminate.
  inversion Hx2; subst. simpl in Hx3.
  apply bedrock_messages_ok in Hx3 as [_ ->].
  exists request, message, items. auto 10.
Qed.

Lemma hosted_prepare_of_turns (event request message : value) (history : list value) :
  read_user_info rt event = Ok tt ->
  decoded_body rt event request ->
  getitem request "message" = Ok message ->
  get request "conversationHistory" (VList []) = Ok (VList history) ->
  forallb is_turn history = true ->
  can_show rt message = true ->
  printable rt (MODEL_ID rt) = true ->
  hosted_prepare rt event
  = Ok (VList (history ++ [turn "user" message]),
        map to_hosted (filter chat_role (history ++ [turn "user" message]))).
Proof.
  intros Hu Hd Hm Hh Ht Hs Hi. unfold hosted_prepare. rewrite Hu. cbn [and_then].
  assert (Hp : parse_request rt event = Ok (message, VList history))
    by (apply parse_request_ok; eauto).
  rewrite Hp. cbn [and_then fst snd].
  rewrite (proj2 (print_processing_ok rt message) (conj Hs Hi)).
  cbn [and_then fst snd assemble_messages copy Py.append map_messages iterate].
  rewrite bedrock_messages_of_turns; [reflexivity|].
  rewrite forallb_app, Ht. cbn [forallb andb]. now rewrite is_turn_turn.
Qed.

(** The hosted handler, from the start of an invocation, in full. *)
Lemma lambda_handler_from_start
  (event : value) (context : lambda_context) (cached : option client) :
  lambda_handler rt event context (start cached) =
  match client_ready rt context cached with
  | Raise e =>
      ({| bedrock_client := client_after rt context cached;
          calls := construction_calls context cached |},
       Ok (failure_response rt e))
  | Ok c =>
      match hosted_prepare rt event with
      | Raise e =>
          ({| bedrock_client := Some c; calls := construction_calls context cached |},
           Ok (failure_response rt e))
      | Ok prepared =>
          let request_body := json_dumps rt (request_payload (snd prepared)) in
          ({| bedrock_client := Some c;
              calls := construction_calls context cached
                       ++ [InvokeModel c (MODEL_ID rt) request_body "application/json"] |},
           Ok match (let* reply_text :=
                       from_library
                         (invoke_model rt c (MODEL_ID rt) request_body
                            "application/json") in
                     hosted_finish rt (fst prepared) reply_text) with
              | Ok r => r
              | Raise e => failure_response rt e
              end)
      end
  end.
Proof.
  rewrite lambda_handler_run, acquire_client_from_start.
  destruct (client_ready rt context cached) as [c|e] eqn:Hc; cbn [and_then];
    [|reflexivity].
  rewrite (client_ready_after rt context cached c Hc). cbn [bedrock_client].
  destruct (hosted_prepare rt event); reflexivity.
Qed.

Lemma construction_calls_no_model (context : lambda_context) (cached : option client) :
  existsb is_model_call (construction_calls context cached) = false.
Proof. destruct cached; reflexivity. Qed.

Lemma construction_calls_not_model (context : lambda_context) (cached : option client)
  (c : client) (modelId request_body contentType : string) :
  ~ In (InvokeModel c modelId request_body contentType)
      (construction_calls context cached).
Proof. destruct cached; simpl; [tauto | intros [H|[]]; discriminate]. Qed.

(** A logged call of the model tells how the invocation went up to it, and
    that its answer decides the response. *)
Lemma model_call_inv (event : value) (context : lambda_context) (cached : option client)
  (c : client) (modelId request_body contentType : string) :
  let out := lambda_handler rt event context (start cached) in
  In (InvokeModel c modelId request_body contentType) (calls (fst out)) ->
  exists messages mapped,
    hosted_prepare rt event = Ok (messages, mapped)
    /\ client_ready rt context cached = Ok c
    /\ modelId = MODEL_ID rt
    /\ request_body = json_dumps rt (request_payload mapped)
    /\ contentType = "application/json"
    /\ snd out
       = Ok match (let* reply_text :=
                     from_library
                       (invoke_model rt c modelId request_body contentType) in
                   hosted_finish rt messages reply_text) with
            | Ok r => r
            | Raise e => failure_response rt e
            end.
Proof.
  intros out Hin. subst out. rewrite lambda_handler_from_start in *.
  pose proof (construction_calls_not_model context cached c modelId request_body
                contentType) as Hno.
  destruct (client_ready rt context cached) as [c0|e]; [|simpl in *; contradiction].
  destruct (hosted_prepare rt event) as [[messages mapped]|e];
    [|simpl in *; contradiction].
  cbv zeta in *. cbn [fst snd calls] in *.
  apply in_app_or in Hin as [Hin|[Hin|[]]]; [contradiction|].
  inversion Hin; subst. exists messages, mapped. auto 10.
Qed.

(** With a client at hand and the request prepared, the model is called. *)
Lemma lambda_handler_calls_model (event : value) (context : lambda_context)
  (cached : option client) (c : client) (messages : value) (mapped : list value) :
  client_ready rt context cached = Ok c ->
  hosted_prepare rt event = Ok (messages, mapped) ->
  let request_body := json_dumps rt (request_payload mapped) in
  let out := lambda_handler rt event context (start cached) in
  In (InvokeModel c (MODEL_ID rt) request_body "application/json") (calls (fst out))
  /\ snd out
     = Ok match (let* reply_text :=
                   from_library
                     (invoke_model rt c (MODEL_ID rt) request_body
                        "application/json") in
                 hosted_finish rt messages reply_text) with
          | Ok r => r
          | Raise e => failure_response rt e
          end.
Proof.
  intros Hc Hp request_body out. subst out request_body.
  rewrite lambda_handler_from_start, Hc, Hp. cbv zeta. cbn [fst snd calls].
  split; [|reflexivity].
  apply in_or_app. right. left. reflexivity.
Qed.

(** A request that cannot be prepared: the hosted handler answers 500 and
    the model is not called. *)
Lemma lambda_handler_not_prepared
  (event : value) (context : lambda_context) (cached : option client) (e : exn) :
  hosted_prepare rt event = Raise e ->
  let out := lambda_handler rt event context (start cached) in
  (exists r, snd out = Ok r /\ statusCode r = 500%Z)
  /\ existsb is_model_call (calls (fst out)) = false
  /\ forall c, client_ready rt context cached = Ok c ->
               snd out = Ok (failure_response rt e).
Proof.
  intros Hp out. subst out. rewrite lambda_handler_from_start, Hp.
  destruct (client_ready rt context cached) as [c|e']; simpl;
    rewrite construction_calls_no_model; repeat split; eauto; discriminate.
Qed.

Lemma hosted_prepare_unparsed (event : value) (e : exn) :
  parse_request rt event = Raise e ->
  exists e', hosted_prepare rt event = Raise e'.
Proof.
  intros Hp. unfold hosted_prepare.
  destruct (read_user_info rt event) as [[]|e']; simpl; eauto.
  rewrite Hp. simpl. eauto.
Qed.

End HostedRuns.

(** ** The messages and the reply of the hosted model *)

(** C2. The loop maps a sequence of turns to the messages [{role, content:
    [{text: content}]}] of exactly those whose role is [user] or [assistant],
    in order, and raises nothing; the turns left out number the total minus
    the mapped ones.  And whenever [lambda_handler] calls the model, the
    [messages] of the request are those of the assembled sequence (history,
    then the new user turn), beside the fixed inference configuration. *)
Theorem C2_hosted_messages_mapping (rt : Runtime) :
  (forall turns,
     forallb is_turn turns = true ->
     bedrock_messages turns = Ok (map to_hosted (filter chat_role turns))
     /\ length (filter (fun t => negb (chat_role t)) turns)
        = length turns - length (map to_hosted (filter chat_role turns)))
  /\ (forall event context cached c modelId request_body contentType,
        In (InvokeModel c modelId request_body contentType)
           (calls (fst (lambda_handler rt event context (start cached)))) ->
        exists request message history,
          decoded_body rt event request
          /\ getitem request "message" = Ok message
          /\ get request "conversationHistory" (VList []) = Ok (VList history)
          /\ request_body
             = json_dumps rt
                 (VDict [("messages",
                          VList (map to_hosted
                                   (filter chat_role (history ++ [turn "user" message]))));
                         ("inferenceConfig",
                          VDict [("maxTokens", VInt 512);
                                 ("stopSequences", VList []);
                                 ("temperature", VFloat (Finite false 7 (-1)));
                                 ("topP", VFloat (Finite false 9 (-1)))])])).
Proof.
  split.
  - intros turns H. split; [now apply bedrock_messages_of_turns | apply dropped_count].
  - intros event context cached c modelId request_body contentType Hin.
    apply model_call_inv in Hin as (messages & mapped & Hp & _ & _ & -> & _ & _).
    apply hosted_prepare_ok in Hp as (request & message & history & _ & Hd & Hm & Hh & _ & ->).
    exists request, message, history. auto.
Qed.

Lemma C2_hosted_messages_mapping_witness :
  bedrock_messages Double.mixed_history
  = Ok [VDict [("role", VStr "user"); ("content", VList [VDict [("text", VStr "hi")]])];
        VDict [("role", VStr "assistant");
               ("content", VList [VDict [("text", VStr "hello")]])]]
  /\ length (filter (fun t => negb (chat_role t)) Double.mixed_history) = 3 - 2.
Proof.
  exact (proj1 (C2_hosted_messages_mapping Double.chat_runtime)
           Double.mixed_history eq_refl).
Defined.

(** C5. When the text the hosted model answered decodes to a value that
    lacks [output], [output.message], a non-empty list [output.message.content]
    or a [text] in the first element of that list, [lambda_handler] returns
    status 500 with [success: false] and an error text that is not empty. *)
Theorem C5_hosted_reply_validation
  (rt : Runtime) (event : value) (context : lambda_context) (cached : option client)
  (c : client) (modelId request_body contentType text : string) (reply_doc : value) :
  let out := lambda_handler rt event context (start cached) in
  In (InvokeModel c modelId request_body contentType) (calls (fst out)) ->
  invoke_model rt c modelId request_body contentType = Ok text ->
  json_loads rt text = Ok reply_doc ->
  bears_reply_text reply_doc = false ->
  exists r,
    snd out = Ok r
    /\ statusCode r = 500%Z
    /\ exists error,
        body r
        = json_dumps rt (VDict [("success", VBool false); ("error", VStr error)])
        /\ error <> "".
Proof.
  intros out Hin Hi Hl Hb.
  apply model_call_inv in Hin as (messages & mapped & _ & _ & _ & _ & _ & Hout).
  fold out in Hout. rewrite Hout, Hi. cbn [from_library and_then]. unfold hosted_finish.
  rewrite Hl. cbn [from_library and_then].
  destruct (extract_reply_lacking reply_doc Hb) as (e & -> & Hne).
  cbn [and_then]. eexists. split; [reflexivity|]. split; [reflexivity|].
  exists (str_exn e). split; [reflexivity | exact Hne].
Qed.

Lemma C5_hosted_reply_validation_witness :
  exists r,
    snd (lambda_handler Double.empty_content_runtime
           (Double.event_of Double.hello_request) Double.context (start None)) = Ok r
    /\ statusCode r = 500%Z
    /\ exists error,
        body r
        = json_dumps Double.empty_content_runtime
            (VDict [("success", VBool false); ("error", VStr error)])
        /\ error <> "".
Proof.
  apply (C5_hosted_reply_validation Double.empty_content_runtime
           (Double.event_of Double.hello_request) Double.context None
           Double.eu_client
           (MODEL_ID Double.empty_content_runtime)
           (json_dumps Double.empty_content_runtime
              (request_payload [hosted_message "user" (VStr "hello")]))
           "application/json"
           (Double.show Double.empty_content_reply) Double.empty_content_reply).
  - right. left. reflexivity.
  - reflexivity.
  - reflexivity.
  - reflexivity.
Defined.

(** ** The history returned by the hosted path *)

(** C1. History [[]] and message [hello], with a model whose answer decodes
    to [{output: {message: {content: [{text: "hi there"}]}}}]: status 200,
    [success: true], [response: "hi there"], and the history made of the user
    turn and the assistant turn.  The lines that print on the way must not
    raise: the claims of the authorizer are read and printed, the region is
    printed when the client is made, and the model identifier is printed. *)
Theorem C1_hosted_round_trip
  (rt : Runtime) (event : value) (context : lambda_context) (cached : option client)
  (request : value) (c : client) (text : string) :
  read_user_info rt event = Ok tt ->
  decoded_body rt event request ->
  getitem request "message" = Ok (VStr "hello") ->
  get request "conversationHistory" (VList []) = Ok (VList []) ->
  client_in_use rt context cached = Ok c ->
  (cached = None ->
   printable rt (extract_region_from_arn (invoked_function_arn context)) = true) ->
  printable rt (MODEL_ID rt) = true ->
  invoke_model rt c (MODEL_ID rt)
    (json_dumps rt
       (VDict [("messages",
                VList [VDict [("role", VStr "user");
                              ("content", VList [VDict [("text", VStr "hello")]])]]);
               ("inferenceConfig",
                VDict [("maxTokens", VInt 512);
                       ("stopSequences", VList []);
                       ("temperature", VFloat (Finite false 7 (-1)));
                       ("topP", VFloat (Finite false 9 (-1)))])]))
    "application/json" = Ok text ->
  json_loads rt text
  = Ok (VDict [("output",
                VDict [("message",
                        VDict [("content", VList [VDict [("text", VStr "hi there")]])])])]) ->
  snd (lambda_handler rt event context (start cached))
  = Ok {| statusCode := 200;
          headers := [("Content-Type", "application/json");
                      ("Access-Control-Allow-Origin", "*");
                      ("Access-Control-Allow-Headers",
                       "Content-Type,X-Amz-Date,Authorization,X-Api-Key,X-Amz-Security-Token");
                      ("Access-Control-Allow-Methods", "OPTIONS,POST")];
          body := json_dumps rt
                    (VDict [("success", VBool true);
                            ("response", VStr "hi there");
                            ("conversationHistory",
                             VList [VDict [("role", VStr "user");
                                           ("content", VStr "hello")];
                                    VDict [("role", VStr "assistant");
                                           ("content", VStr "hi there")]])]) |}.
Proof.
  intros Hu Hd Hm Hh Hc Hr Hi Hv Hl.
  pose proof (hosted_prepare_of_turns rt event request (VStr "hello") [] Hu Hd Hm Hh
                eq_refl eq_refl Hi) as Hp.
  assert (Hready : client_ready rt context cached = Ok c)
    by (apply client_ready_in_use; auto).
  destruct (lambda_handler_calls_model rt event context cached c _ _ Hready Hp) as [_ Hout].
  rewrite Hout. cbn [app filter map chat_role turn role_of lookup] in *.
  change (request_payload _) with
    (VDict [("messages",
             VList [VDict [("role", VStr "user");
                           ("content", VList [VDict [("text", VStr "hello")]])]]);
            ("inferenceConfig",
             VDict [("maxTokens", VInt 512);
                    ("stopSequences", VList []);
                    ("temperature", VFloat (Finite false 7 (-1)));
                    ("topP", VFloat (Finite false 9 (-1)))])]).
  rewrite Hv. cbn [from_library and_then]. unfold hosted_finish. rewrite Hl. reflexivity.
Qed.

Lemma C1_hosted_round_trip_witness :
  snd (lambda_handler Double.chat_runtime (Double.event_of Double.hello_request)
         Double.context (start None))
  = Ok {| statusCode := 200;
          headers := [("Content-Type", "application/json");
                      ("Access-Control-Allow-Origin", "*");
                      ("Access-Control-Allow-Headers",
                       "Content-Type,X-Amz-Date,Authorization,X-Api-Key,X-Amz-Security-Token");
                      ("Access-Control-Allow-Methods", "OPTIONS,POST")];
          body := json_dumps Double.chat_runtime
                    (VDict [("success", VBool true);
                            ("response", VStr "hi there");
                            ("conversationHistory",
                             VList [VDict [("role", VStr "user");
                                           ("content", VStr "hello")];
                                    VDict [("role", VStr "assistant");
                                           ("content", VStr "hi there")]])]) |}.
Proof.
  apply (C1_hosted_round_trip Double.chat_runtime (Double.event_of Double.hello_request)
           Double.context None Double.hello_request Double.eu_client
           (Double.show Double.hi_there_reply)).
  - reflexivity.
  - do 2 eexists. repeat split; reflexivity.
  - reflexivity.
  - reflexivity.
  - reflexivity.
  - reflexivity.
  - reflexivity.
  - reflexivity.
  - reflexivity.
Defined.

(** C10. Whenever [lambda_handler] succeeds, the [conversationHistory] of its
    body is the history of the request, every turn of it in place whatever
    its role, then the new user turn, then the new assistant turn; the
    request the model was sent holds only the turns of role [user] or
    [assistant]. *)
Theorem C10_hosted_history_keeps_every_turn
  (rt : Runtime) (event : value) (context : lambda_context) (cached : option client)
  (r : response) :
  let out := lambda_handler rt event context (start cached) in
  snd out = Ok r ->
  statusCode r = 200%Z ->
  exists request message history c text reply_doc reply,
    decoded_body rt event request
    /\ getitem request "message" = Ok message
    /\ get request "conversationHistory" (VList []) = Ok (VList history)
    /\ In (InvokeModel c (MODEL_ID rt)
             (json_dumps rt
                (request_payload
                   (map to_hosted (filter chat_role (history ++ [turn "user" message])))))
             "application/json")
          (calls (fst out))
    /\ invoke_model rt c (MODEL_ID rt)
         (json_dumps rt
            (request_payload
               (map to_hosted (filter chat_role (history ++ [turn "user" message])))))
         "application/json" = Ok text
    /\ json_loads rt text = Ok reply_doc
    /\ extract_reply reply_doc = Ok reply
    /\ body r
       = json_dumps rt
           (VDict [("success", VBool true);
                   ("response", reply);
                   ("conversationHistory",
                    VList (history
                           ++ [VDict [("role", VStr "user"); ("content", message)];
                               VDict [("role", VStr "assistant"); ("content", reply)]]))]).
Proof.
  intros out Hr Hs. subst out. rewrite lambda_handler_from_start in *.
  destruct (client_ready rt context cached) as [c|e];
    [|inversion Hr; subst; discriminate].
  destruct (hosted_prepare rt event) as [[messages mapped]|e] eqn:Hp;
    [|inversion Hr; subst; discriminate].
  cbv zeta in *. cbn [fst snd] in *.
  destruct (invoke_model rt c (MODEL_ID rt) (json_dumps rt (request_payload mapped))
              "application/json") as [text|e] eqn:Hi;
    [|inversion Hr; subst; discriminate].
  cbn [from_library and_then] in *.
  destruct (hosted_finish rt messages text) as [r'|e] eqn:Hf;
    [|inversion Hr; subst; discriminate].
  inversion Hr; subst r'; clear Hr.
  apply hosted_finish_ok in Hf as (reply_doc & reply & items & Hl & He & Hitems & ->).
  apply hosted_prepare_ok in Hp
    as (request & message & history & _ & Hd & Hm & Hh & Hmsgs & ->).
  rewrite Hmsgs in Hitems. inversion Hitems; subst items.
  exists request, message, history, c, text, reply_doc, reply.
  repeat split; auto.
  - simpl. apply in_or_app. right. left. reflexivity.
  - simpl. now rewrite <- app_assoc.
Qed.

Lemma C10_hosted_history_keeps_every_turn_witness :
  exists request message history c text reply_doc reply,
    decoded_body Double.chat_runtime (Double.event_of Double.mixed_request) request
    /\ getitem request "message" = Ok message
    /\ get request "conversationHistory" (VList []) = Ok (VList history)
    /\ In (InvokeModel c (MODEL_ID Double.chat_runtime)
             (json_dumps Double.chat_runtime
                (request_payload
                   (map to_hosted (filter chat_role (history ++ [turn "user" message])))))
             "application/json")
          (calls (fst (lambda_handler Double.chat_runtime
                         (Double.event_of Double.mixed_request)
                         Double.context (start None))))
    /\ invoke_model Double.chat_runtime c (MODEL_ID Double.chat_runtime)
         (json_dumps Double.chat_runtime
            (request_payload
               (map to_hosted (filter chat_role (history ++ [turn "user" message])))))
         "application/json" = Ok text
    /\ json_loads Double.chat_runtime text = Ok reply_doc
    /\ extract_reply reply_doc = Ok reply
    /\ body (hosted_success Double.chat_runtime (VStr "hi there")
               (VList (Double.mixed_history
                       ++ [turn "user" (VStr "hello");
                           turn "assistant" (VStr "hi there")])))
       = json_dumps Double.chat_runtime
           (VDict [("success", VBool true);
                   ("response", reply);
                   ("conversationHistory",
                    VList (history
                           ++ [VDict [("role", VStr "user"); ("content", message)];
                               VDict [("role", VStr "assistant"); ("content", reply)]]))]).
Proof.
  apply (C10_hosted_history_keeps_every_turn Double.chat_runtime
           (Double.event_of Double.mixed_request) Double.context None
           (hosted_success Double.chat_runtime (VStr "hi there")
              (VList (Double.mixed_history
                      ++ [turn "user" (VStr "hello");
                          turn "assistant" (VStr "hi there")])))).
  - reflexivity.
  - reflexivity.
Defined.

(** A history with a [system] turn, run on the doubles: the turn is not in
    the request sent to the model, and is in the history returned. *)
Example system_turn_kept_not_sent :
  lambda_handler Double.chat_runtime (Double.event_of Double.mixed_request)
    Double.context (start None)
  = ({| bedrock_client := Some Double.eu_client;
        calls := [Boto3Client "bedrock-runtime" "eu-west-1";
                  InvokeModel Double.eu_client "us.amazon.nova-lite-v1:0"
                    (Double.show
                       (request_payload [hosted_message "user" (VStr "hi");
                                         hosted_message "assistant" (VStr "hello");
                                         hosted_message "user" (VStr "hello")]))
                    "application/json"] |},
     Ok {| statusCode := 200;
           headers := cors_headers;
           body := Double.show
                     (VDict [("success", VBool true);
                             ("response", VStr "hi there");
                             ("conversationHistory",
                              VList [turn "system" (VStr "be brief");
                                     turn "user" (VStr "hi");
                                     turn "assistant" (VStr "hello");
                                     turn "user" (VStr "hello");
                                     turn "assistant" (VStr "hi there")])]) |}).
Proof. reflexivity. Qed.

(** The base URL loses its trailing slashes before [/generate] is added. *)
Example url_normalization :
  url (fastapi_request Cases.slashed_runtime (VStr "ping"))
  = "http://host:8000/generate".
Proof. reflexivity. Qed.

(** A body that is not JSON: both handlers answer 500, and send nothing. *)
Example malformed_body_fails :
  (exists r,
     snd (lambda_fastapi_handler Double.chat_runtime
            (VDict [("body", VStr "not json")]) Double.context (start None)) = Ok r
     /\ statusCode r = 500%Z)
  /\ (exists r,
        snd (lambda_handler Double.chat_runtime
               (VDict [("body", VStr "not json")]) Double.context (start None)) = Ok r
        /\ statusCode r = 500%Z)
  /\ calls (fst (lambda_fastapi_handler Double.chat_runtime
                   (VDict [("body", VStr "not json")]) Double.context (start None)))
     = [].
Proof. repeat split; eexists; split; reflexivity. Qed.

(** Authorizer claims that are not an object stop the hosted handler before
    the request is read: [user_info.get] raises. *)
Example unreadable_claims_fail :
  lambda_handler Double.chat_runtime
    (VDict [("requestContext", VDict [("authorizer", VDict [("claims", VStr "alice")])]);
            ("body", VStr (Double.show Double.hello_request))])
    Double.context (start (Some Double.eu_client))
  = (start (Some Double.eu_client),
     Ok (failure_response Double.chat_runtime
           (AttributeError "'str' object has no attribute 'get'"))).
Proof. reflexivity. Qed.

(** ** The message of the request *)





(** ** The response in every case *)

(** C7, where the code fails it.  The self-hosted backend answers the JSON
    string [Cases.garbled] to a well-formed request.  The [Exception] of line
    60 holds that string, line 88 prints it before the response is built, the
    standard output cannot encode it, and the [UnicodeEncodeError] raised
    inside the [except] arm leaves [lambda_fastapi_handler]: it returns no
    response, with no status, no header and no body. *)
Theorem C7_error_print_leaves_the_handler :
  lambda_fastapi_handler Cases.garbled_runtime (Double.event_of Double.ping_request)
    Double.context (start None)
  = ({| bedrock_client := None;
        calls := [UrlOpen (fastapi_request Cases.garbled_runtime (VStr "ping"))] |},
     Raise (Library
              (LibraryError "UnicodeEncodeError"
                 "'utf-8' codec can't encode character: surrogates not allowed")))
  /\ forall r : response,
       snd (lambda_fastapi_handler Cases.garbled_runtime
              (Double.event_of Double.ping_request) Double.context (start None))
       <> Ok r.
Proof. split; [reflexivity | intros r H; vm_compute in H; discriminate]. Qed.

(** * Further properties *)

(** ** Region extraction, continued *)

(** X1. An ARN that starts with [arn:aws:lambda:], then a region of one or
    more characters other than a colon, then a colon, gives that region. *)
Theorem X1_extract_region_of_lambda_arn (region rest : string) :
  region <> "" ->
  colon_free region = true ->
  extract_region_from_arn (arn_pattern_prefix ++ region ++ ":" ++ rest) = region.
Proof.
  intros Hne Hc.
  assert (Hm : match_arn_here (arn_pattern_prefix ++ region ++ ":" ++ rest) = Some region)
    by (apply match_arn_here_some; eauto).
  unfold extract_region_from_arn.
  destruct (arn_pattern_prefix ++ region ++ ":" ++ rest) eqn:E;
    cbn [re_search_arn]; now rewrite Hm.
Qed.

Lemma X1_extract_region_of_lambda_arn_witness :
  extract_region_from_arn
    (arn_pattern_prefix ++ "ap-northeast-1" ++ ":" ++ "123456789012:function:chat")
  = "ap-northeast-1".
Proof.
  apply (X1_extract_region_of_lambda_arn "ap-northeast-1" "123456789012:function:chat").
  - discriminate.
  - reflexivity.
Defined.

(** X2. Whatever the input, the region returned is not empty and holds no
    colon. *)
Theorem X2_extract_region_shape (arn : string) :
  extract_region_from_arn arn <> ""
  /\ colon_free (extract_region_from_arn arn) = true.
Proof.
  unfold extract_region_from_arn.
  destruct (re_search_arn arn) as [g|] eqn:E.
  - apply re_search_arn_sound in E as (before & rest & _ & Hne & Hc). auto.
  - split; [discriminate | reflexivity].
Qed.

(** ** The URL of the self-hosted backend *)

Lemma rstrip_slash_slashes (n : nat) : rstrip_slash (slashes n) = "".
Proof. induction n as [|n IH]; simpl; [reflexivity | now rewrite IH]. Qed.

Lemma rstrip_slash_trailing (base : string) (n : nat) :
  ends_with_slash base = false ->
  rstrip_slash (base ++ slashes n) = base.
Proof.
  induction base as [|c base IH]; intros H.
  - apply rstrip_slash_slashes.
  - destruct base as [|c' base].
    + simpl in *. rewrite rstrip_slash_slashes, H. reflexivity.
    + change (ends_with_slash (String c (String c' base)))
        with (ends_with_slash (String c' base)) in H.
      change (String c (String c' base) ++ slashes n)
        with (String c (String c' base ++ slashes n)).
      cbn [rstrip_slash]. rewrite (IH H). reflexivity.
Qed.

(** X3. Whatever number of slashes ends the configured base URL, the request
    goes to the base without them followed by [/generate], as a POST with the
    JSON content type. *)
Theorem X3_fastapi_url_normalized
  (rt : Runtime) (base : string) (n : nat) (message : value) :
  FASTAPI_URL rt = base ++ slashes n ->
  ends_with_slash base = false ->
  url (fastapi_request rt message) = base ++ "/generate"
  /\ method (fastapi_request rt message) = "POST"
  /\ request_headers (fastapi_request rt message)
     = [("Content-Type", "application/json")].
Proof.
  intros Hu Hb. unfold fastapi_request. simpl.
  now rewrite Hu, (rstrip_slash_trailing base n Hb).
Qed.

Lemma X3_fastapi_url_normalized_witness :
  url (fastapi_request Cases.slashed_runtime (VStr "ping")) = "http://host:8000/generate"
  /\ method (fastapi_request Cases.slashed_runtime (VStr "ping")) = "POST"
  /\ request_headers (fastapi_request Cases.slashed_runtime (VStr "ping"))
     = [("Content-Type", "application/json")].
Proof.
  apply (X3_fastapi_url_normalized Cases.slashed_runtime "http://host:8000" 2 (VStr "ping")).
  - reflexivity.
  - reflexivity.
Defined.

(** ** The self-hosted path, continued *)

(** X4. [lambda_fastapi_handler] leaves the cached client as it found it,
    logs nothing or one POST to the self-hosted backend, and returns the same
    response whatever the context and the state of the process. *)
Theorem X4_fastapi_independent_of_process_state
  (rt : Runtime) (event : value) (context1 context2 : lambda_context) (w1 w2 : world) :
  let out1 := lambda_fastapi_handler rt event context1 w1 in
  let out2 := lambda_fastapi_handler rt event context2 w2 in
  bedrock_client (fst out1) = bedrock_client w1
  /\ (calls (fst out1) = calls w1
      \/ exists message,
           calls (fst out1) = (calls w1 ++ [UrlOpen (fastapi_request rt message)])%list)
  /\ snd out1 = snd out2.
Proof.
  cbv zeta. rewrite !lambda_fastapi_handler_run.
  destruct (parse_request rt event) as [[message history]|e]; simpl; eauto.
Qed.

(** X5. When the call of the self-hosted backend raises (an [HTTPError] for a
    status that is not a success, or any other error), the handler returns
    500 with the text of that error, after exactly one request: it does not
    try again. *)
Theorem X5_fastapi_transport_error
  (rt : Runtime) (event : value) (context : lambda_context) (cached : option client)
  (request message : value) (e : library_error) :
  decoded_body rt event request ->
  getitem request "message" = Ok message ->
  urlopen rt (fastapi_request rt message) = Raise e ->
  lambda_fastapi_handler rt event context (start cached)
  = ({| bedrock_client := cached; calls := [UrlOpen (fastapi_request rt message)] |},
     Ok {| statusCode := 500;
           headers := cors_headers;
           body := json_dumps rt (VDict [("success", VBool false);
                                         ("error", VStr (str_exn e))]) |}).
Proof.
  intros Hd Hm Hu. rewrite lambda_fastapi_handler_run.
  assert (Hh : exists history, get request "conversationHistory" (VList []) = Ok history).
  { apply getitem_ok in Hm as (d & -> & _). simpl.
    destruct (lookup "conversationHistory" d); eauto. }
  destruct Hh as [history Hh].
  assert (Hp : parse_request rt event = Ok (message, history))
    by (apply parse_request_ok; eauto).
  rewrite Hp. cbn [fst snd]. rewrite Hu. reflexivity.
Qed.

Lemma X5_fastapi_transport_error_witness :
  lambda_fastapi_handler Cases.down_runtime (Double.event_of Double.ping_request)
    Double.context (start None)
  = ({| bedrock_client := None;
        calls := [UrlOpen (fastapi_request Cases.down_runtime (VStr "ping"))] |},
     Ok {| statusCode := 500;
           headers := cors_headers;
           body := json_dumps Cases.down_runtime
                     (VDict [("success", VBool false);
                             ("error", VStr "HTTP Error 503: Service Unavailable")]) |}).
Proof.
  apply (X5_fastapi_transport_error Cases.down_runtime
           (Double.event_of Double.ping_request) Double.context None
           Double.ping_request (VStr "ping") (HTTPError 503 "Service Unavailable")).
  - do 2 eexists. repeat split; reflexivity.
  - reflexivity.
  - reflexivity.
Defined.

(** X6. A body that [json.loads] rejects: the self-hosted handler returns 500
    with the text of the decoder's error and calls nothing; the hosted
    handler returns 500 and does not call the model. *)
Theorem X6_undecodable_body
  (rt : Runtime) (event : value) (context : lambda_context) (cached : option client)
  (entries : list (string * value)) (text : string) (e : library_error) :
  event = VDict entries ->
  lookup "body" entries = Some (VStr text) ->
  json_loads rt text = Raise e ->
  lambda_fastapi_handler rt event context (start cached)
  = (start cached, Ok (failure_response rt e))
  /\ (exists r,
        snd (lambda_handler rt event context (start cached)) = Ok r
        /\ statusCode r = 500%Z)
  /\ existsb is_model_call (calls (fst (lambda_handler rt event context (start cached))))
     = false.
Proof.
  intros -> Hb Hl.
  assert (Hp : parse_request rt (VDict entries) = Raise (Library e)).
  { unfold parse_request. simpl. rewrite Hb. simpl. now rewrite Hl. }
  split.
  - now rewrite lambda_fastapi_handler_run, Hp.
  - destruct (hosted_prepare_unparsed rt _ _ Hp) as [e' He'].
    destruct (lambda_handler_not_prepared rt (VDict entries) context cached e' He')
      as (Hs & Hc & _).
    auto.
Qed.

Lemma X6_undecodable_body_witness :
  lambda_fastapi_handler Cases.up_runtime (VDict [("body", VStr "{message:")])
    Double.context (start None)
  = (start None,
     Ok (failure_response Cases.up_runtime
           (LibraryError "JSONDecodeError" "Expecting value: line 1 column 1 (char 0)")))
  /\ (exists r,
        snd (lambda_handler Cases.up_runtime (VDict [("body", VStr "{message:")])
               Double.context (start None)) = Ok r
        /\ statusCode r = 500%Z)
  /\ existsb is_model_call
       (calls (fst (lambda_handler Cases.up_runtime (VDict [("body", VStr "{message:")])
                      Double.context (start None))))
     = false.
Proof.
  apply (X6_undecodable_body Cases.up_runtime (VDict [("body", VStr "{message:")])
           Double.context None [("body", VStr "{message:")] "{message:").
  - reflexivity.
  - reflexivity.
  - reflexivity.
Defined.

(** X7. An event without a [body], or with a [body] that is not a string
    (the [null] of a request sent without one): [json.loads] is not reached,
    the self-hosted handler returns 500 with a [KeyError] or [TypeError] text
    and calls nothing, and the hosted handler returns 500 without calling the
    model. *)
Theorem X7_body_absent_or_not_a_string
  (rt : Runtime) (context : lambda_context) (cached : option client)
  (entries : list (string * value)) :
  match lookup "body" entries with
  | Some raw => is_string raw = false
  | None => True
  end ->
  let event := VDict entries in
  lambda_fastapi_handler rt event context (start cached)
  = (start cached,
     Ok (failure_response rt
           match lookup "body" entries with
           | Some raw =>
               TypeError ("the JSON object must be str, bytes or bytearray, not "
                          ++ type_name raw)
           | None => KeyError "'body'"
           end))
  /\ (exists r,
        snd (lambda_handler rt event context (start cached)) = Ok r
        /\ statusCode r = 500%Z)
  /\ existsb is_model_call (calls (fst (lambda_handler rt event context (start cached))))
     = false.
Proof.
  intros Hb event. subst event.
  assert (Hp : parse_request rt (VDict entries)
               = Raise match lookup "body" entries with
                       | Some raw =>
                           TypeError ("the JSON object must be str, bytes or bytearray, not "
                                      ++ type_name raw)
                       | None => KeyError "'body'"
                       end).
  { unfold parse_request. simpl.
    destruct (lookup "body" entries) as [raw|]; simpl; [|reflexivity].
    destruct raw; simpl; try reflexivity. discriminate. }
  split.
  - now rewrite lambda_fastapi_handler_run, Hp.
  - destruct (hosted_prepare_unparsed rt _ _ Hp) as [e' He'].
    destruct (lambda_handler_not_prepared rt (VDict entries) context cached e' He')
      as (Hs & Hc & _).
    auto.
Qed.

Lemma X7_body_absent_or_not_a_string_witness :
  lambda_fastapi_handler Cases.up_runtime (VDict [("body", VNone)])
    Double.context (start None)
  = (start None,
     Ok (failure_response Cases.up_runtime
           (TypeError "the JSON object must be str, bytes or bytearray, not NoneType")))
  /\ (exists r,
        snd (lambda_handler Cases.up_runtime (VDict [("body", VNone)])
               Double.context (start None)) = Ok r
        /\ statusCode r = 500%Z)
  /\ existsb is_model_call
       (calls (fst (lambda_handler Cases.up_runtime (VDict [("body", VNone)])
                      Double.context (start None))))
     = false.
Proof.
  apply (X7_body_absent_or_not_a_string Cases.up_runtime Double.context None
           [("body", VNone)]).
  reflexivity.
Defined.

(** X8. A [conversationHistory] that is not a list (a string, a number, an
    object, [null]) is never answered by a success.  The self-hosted handler
    finds out only when it appends the reply: it has already sent its
    request, and whatever it returns is a 500.  The hosted handler finds out
    before the call: it returns 500 and the model is not called. *)
Theorem X8_history_not_a_list
  (rt : Runtime) (event : value) (context : lambda_context) (cached : option client)
  (request message history : value) :
  decoded_body rt event request ->
  getitem request "message" = Ok message ->
  get request "conversationHistory" (VList []) = Ok history ->
  is_list history = false ->
  let a := lambda_fastapi_handler rt event context (start cached) in
  let b := lambda_handler rt event context (start cached) in
  (forall r, snd a = Ok r -> statusCode r = 500%Z)
  /\ calls (fst a) = [UrlOpen (fastapi_request rt message)]
  /\ (exists r, snd b = Ok r /\ statusCode r = 500%Z)
  /\ existsb is_model_call (calls (fst b)) = false.
Proof.
  intros Hd Hm Hh Hl a b. subst a b.
  assert (Hp : parse_request rt event = Ok (message, history))
    by (apply parse_request_ok; eauto).
  split; [|split].
  - rewrite lambda_fastapi_handler_run, Hp. cbn [fst snd]. intros r Hr.
    destruct (let* resp_body := from_library (urlopen rt (fastapi_request rt message)) in
              fastapi_finish rt history resp_body) as [r'|e] eqn:E.
    + invert_ok E.
      apply fastapi_finish_ok in E as (api & reply & time & items & _ & _ & _ & -> & _).
      discriminate.
    + apply handled_ok in Hr. now subst.
  - now rewrite lambda_fastapi_handler_run, Hp.
  - assert (Hprep : exists e, hosted_prepare rt event = Raise e).
    { unfold hosted_prepare. destruct (read_user_info rt event) as [[]|e]; simpl; eauto.
      rewrite Hp. cbn [and_then fst snd].
      destruct (print_processing rt message) as [[]|e]; simpl; eauto.
      unfold assemble_messages.
      destruct history; simpl; eauto. discriminate. }
    destruct Hprep as [e He].
    destruct (lambda_handler_not_prepared rt event context cached e He) as (Hs & Hc & _).
    auto.
Qed.

Lemma X8_history_not_a_list_witness :
  (forall r,
     snd (lambda_fastapi_handler Cases.up_runtime
            (Double.event_of Cases.string_history_request)
            Double.context (start None)) = Ok r ->
     statusCode r = 500%Z)
  /\ calls (fst (lambda_fastapi_handler Cases.up_runtime
                   (Double.event_of Cases.string_history_request)
                   Double.context (start None)))
     = [UrlOpen (fastapi_request Cases.up_runtime (VStr "ping"))]
  /\ (exists r,
        snd (lambda_handler Cases.up_runtime
               (Double.event_of Cases.string_history_request)
               Double.context (start None)) = Ok r
        /\ statusCode r = 500%Z)
  /\ existsb is_model_call
       (calls (fst (lambda_handler Cases.up_runtime
                      (Double.event_of Cases.string_history_request)
                      Double.context (start None)))) = false.
Proof.
  apply (X8_history_not_a_list Cases.up_runtime
           (Double.event_of Cases.string_history_request) Double.context None
           Cases.string_history_request (VStr "ping") (VStr "earlier")).
  - do 2 eexists. repeat split; reflexivity.
  - reflexivity.
  - reflexivity.
  - reflexivity.
Defined.

(** X9. When the self-hosted backend answers an object without
    [generated_text] or without [response_time], the error text of the 500
    response is [Unexpected response from FastAPI: ] followed by the answer as
    [str] prints it. *)
Theorem X9_fastapi_missing_field_message
  (rt : Runtime) (event : value) (context : lambda_context) (cached : option client)
  (req : http_request) (text : string) (fields : list (string * value)) :
  let out := lambda_fastapi_handler rt event context (start cached) in
  In (UrlOpen req) (calls (fst out)) ->
  urlopen rt req = Ok text ->
  json_loads rt text = Ok (VDict fields) ->
  lookup "generated_text" fields = None \/ lookup "response_time" fields = None ->
  snd out
  = Ok {| statusCode := 500;
          headers := cors_headers;
          body := json_dumps rt
                    (VDict [("success", VBool false);
                            ("error",
                             VStr ("Unexpected response from FastAPI: "
                                   ++ py_str rt (VDict fields)))]) |}.
Proof.
  intros out Hin Hu Hl Hk. subst out.
  rewrite lambda_fastapi_handler_run in *.
  destruct (parse_request rt event) as [[message history]|e];
    [|simpl in Hin; contradiction].
  simpl in Hin. destruct Hin as [Hin|[]]. inversion Hin; subst req; clear Hin.
  cbn [fst snd]. rewrite Hu. cbn [from_library and_then]. unfold fastapi_finish.
  rewrite Hl. cbn [from_library and_then]. unfold fields_missing. simpl.
  destruct (lookup "generated_text" fields); simpl; [|reflexivity].
  destruct Hk as [Hk|Hk]; [discriminate|]. rewrite Hk. reflexivity.
Qed.

Lemma X9_fastapi_missing_field_message_witness :
  snd (lambda_fastapi_handler Cases.lacking_runtime (Double.event_of Double.ping_request)
         Double.context (start None))
  = Ok {| statusCode := 500;
          headers := cors_headers;
          body := json_dumps Cases.lacking_runtime
                    (VDict [("success", VBool false);
                            ("error",
                             VStr ("Unexpected response from FastAPI: "
                                   ++ py_str Cases.lacking_runtime
                                        (VDict [("generated_text", VStr "pong")])))]) |}.
Proof.
  apply (X9_fastapi_missing_field_message Cases.lacking_runtime
           (Double.event_of Double.ping_request) Double.context None
           (fastapi_request Cases.lacking_runtime (VStr "ping"))
           (Double.show Double.no_time_reply) [("generated_text", VStr "pong")]).
  - left. reflexivity.
  - reflexivity.
  - reflexivity.
  - right. reflexivity.
Defined.

(** X10. [lambda_fastapi_handler] reads nothing of the event but its [body]:
    two events with the same [body] entry, whatever else they hold (a
    [requestContext], authorizer claims of any shape), get the same response
    and the same request is sent. *)
Theorem X10_fastapi_reads_body_only
  (rt : Runtime) (event1 event2 : value) (context1 context2 : lambda_context)
  (w : world) :
  getitem event1 "body" = getitem event2 "body" ->
  lambda_fastapi_handler rt event1 context1 w
  = lambda_fastapi_handler rt event2 context2 w.
Proof.
  intros H. rewrite !lambda_fastapi_handler_run.
  assert (Hp : parse_request rt event1 = parse_request rt event2)
    by (unfold parse_request; now rewrite H).
  now rewrite Hp.
Qed.

Lemma X10_fastapi_reads_body_only_witness :
  lambda_fastapi_handler Cases.up_runtime (Cases.claimless_event Double.ping_request)
    Double.context (start None)
  = lambda_fastapi_handler Cases.up_runtime (Double.event_of Double.ping_request)
      Double.context (start None).
Proof.
  apply (X10_fastapi_reads_body_only Cases.up_runtime
           (Cases.claimless_event Double.ping_request)
           (Double.event_of Double.ping_request) Double.context Double.context).
  reflexivity.
Defined.

(** X11. A request without a [conversationHistory] key is handled as one
    whose [conversationHistory] is the empty list: with the same [message],
    the two get the same response and make the same calls, in the self-hosted
    handler, and in the hosted one when reading and printing the authorizer
    claims ends alike on both events. *)
Theorem X11_history_defaults_to_empty
  (rt : Runtime) (event1 event2 : value) (context : lambda_context)
  (cached : option client) (fields1 fields2 : list (string * value)) (message : value) :
  decoded_body rt event1 (VDict fields1) ->
  decoded_body rt event2 (VDict fields2) ->
  lookup "message" fields1 = Some message ->
  lookup "message" fields2 = Some message ->
  lookup "conversationHistory" fields1 = None ->
  lookup "conversationHistory" fields2 = Some (VList []) ->
  lambda_fastapi_handler rt event1 context (start cached)
  = lambda_fastapi_handler rt event2 context (start cached)
  /\ (read_user_info rt event1 = read_user_info rt event2 ->
      lambda_handler rt event1 context (start cached)
      = lambda_handler rt event2 context (start cached)).
Proof.
  intros Hd1 Hd2 Hm1 Hm2 Hh1 Hh2.
  assert (Hp1 : parse_request rt event1 = Ok (message, VList [])).
  { apply parse_request_ok. exists (VDict fields1). repeat split; auto; simpl.
    - now rewrite Hm1.
    - now rewrite Hh1. }
  assert (Hp2 : parse_request rt event2 = Ok (message, VList [])).
  { apply parse_request_ok. exists (VDict fields2). repeat split; auto; simpl.
    - now rewrite Hm2.
    - now rewrite Hh2. }
  split.
  - now rewrite !lambda_fastapi_handler_run, Hp1, Hp2.
  - intros Hu. rewrite !lambda_handler_from_start.
    assert (Hprep : hosted_prepare rt event1 = hosted_prepare rt event2)
      by (unfold hosted_prepare; now rewrite Hu, Hp1, Hp2).
    now rewrite Hprep.
Qed.

Lemma X11_history_defaults_to_empty_witness :
  lambda_fastapi_handler Cases.up_runtime (Double.event_of Double.ping_request)
    Double.context (start None)
  = lambda_fastapi_handler Cases.up_runtime (Double.event_of Cases.empty_history_request)
      Double.context (start None).
Proof.
  apply (X11_history_defaults_to_empty Cases.up_runtime
           (Double.event_of Double.ping_request)
           (Double.event_of Cases.empty_history_request) Double.context None
           [("message", VStr "ping")]
           [("message", VStr "ping"); ("conversationHistory", VList [])]
           (VStr "ping")).
  - do 2 eexists. repeat split; reflexivity.
  - do 2 eexists. repeat split; reflexivity.
  - reflexivity.
  - reflexivity.
  - reflexivity.
  - reflexivity.
Defined.

(** ** The cached client *)

Lemma construction_calls_only (context : lambda_context) (cached : option client) :
  forallb is_client_construction (construction_calls context cached) = true.
Proof. destruct cached; reflexivity. Qed.

(** The client the process holds after an invocation. *)
Lemma lambda_handler_client_after
  (rt : Runtime) (event : value) (context : lambda_context) (cached : option client) :
  bedrock_client (fst (lambda_handler rt event context (start cached)))
  = client_after rt context cached.
Proof.
  rewrite lambda_handler_from_start.
  destruct (client_ready rt context cached) as [c|e] eqn:Hc; [|reflexivity].
  rewrite <- (client_ready_after rt context cached c Hc).
  destruct (hosted_prepare rt event); reflexivity.
Qed.

(** X12. With a client cached, [lambda_handler] makes no new one, keeps the
    cached one, and does not look at the context: the ARN plays no part any
    more. *)
Theorem X12_cached_client_is_reused
  (rt : Runtime) (event : value) (context1 context2 : lambda_context) (c : client) :
  let out := lambda_handler rt event context1 (start (Some c)) in
  bedrock_client (fst out) = Some c
  /\ existsb is_client_construction (calls (fst out)) = false
  /\ out = lambda_handler rt event context2 (start (Some c)).
Proof.
  cbv zeta. rewrite !lambda_handler_from_start. simpl.
  destruct (hosted_prepare rt event) as [prepared|e]; simpl; auto.
Qed.

(** X13. With no client cached, [lambda_handler] first asks [boto3] for a
    [bedrock-runtime] client in the region of the ARN, once.  If that raises,
    the response is 500 with the text of the error, nothing else is called and
    there is still no client.  If it returns, the client is cached from then
    on, however the rest of the invocation ends. *)
Theorem X13_client_made_on_first_use
  (rt : Runtime) (event : value) (context : lambda_context) :
  let region := extract_region_from_arn (invoked_function_arn context) in
  let out := lambda_handler rt event context (start None) in
  match boto3_client rt "bedrock-runtime" region with
  | Raise e =>
      out = ({| bedrock_client := None;
                calls := [Boto3Client "bedrock-runtime" region] |},
             Ok (failure_response rt e))
  | Ok c =>
      bedrock_client (fst out) = Some c
      /\ exists rest,
          calls (fst out) = Boto3Client "bedrock-runtime" region :: rest
          /\ existsb is_client_construction rest = false
  end.
Proof.
  cbv zeta. rewrite lambda_handler_from_start.
  unfold client_ready, client_after. cbn [construction_calls].
  destruct (boto3_client rt "bedrock-runtime" _) as [c|e]; [|reflexivity].
  cbn [from_library and_then].
  destruct (print_value rt _ _) as [[]|e]; cbn [and_then].
  - destruct (hosted_prepare rt event) as [prepared|e]; simpl; eauto.
  - simpl; eauto.
Qed.

(** X14. Two invocations in one process: once the first has made the client,
    the second makes none and works with the same one, whatever its own
    context says and however the first ended. *)
Theorem X14_second_invocation_reuses_client
  (rt : Runtime) (event1 event2 : value) (context1 context2 : lambda_context)
  (c : client) :
  boto3_client rt "bedrock-runtime"
    (extract_region_from_arn (invoked_function_arn context1)) = Ok c ->
  let first := lambda_handler rt event1 context1 (start None) in
  let second := lambda_handler rt event2 context2 (start (bedrock_client (fst first))) in
  bedrock_client (fst second) = Some c
  /\ existsb is_client_construction (calls (fst second)) = false
  /\ forall modelId request_body contentType c',
       In (InvokeModel c' modelId request_body contentType) (calls (fst second)) ->
       c' = c.
Proof.
  intros Hb first second. subst first second.
  rewrite (lambda_handler_client_after rt event1 context1 None).
  unfold client_after. rewrite Hb.
  rewrite lambda_handler_from_start. simpl.
  destruct (hosted_prepare rt event2) as [prepared|e]; simpl.
  - split; [reflexivity|]. split; [reflexivity|].
    intros modelId request_body contentType c' [H|[]]. now inversion H.
  - split; [reflexivity|]. split; [reflexivity|].
    intros modelId request_body contentType c' [].
Qed.

Lemma X14_second_invocation_reuses_client_witness :
  bedrock_client
    (fst (lambda_handler Cases.up_runtime (Double.event_of Double.hello_request)
            {| invoked_function_arn := "arn:aws:lambda:us-west-2:1:function:other" |}
            (start (bedrock_client
                      (fst (lambda_handler Cases.up_runtime
                              (VDict [("body", VStr "{message:")])
                              Double.context (start None)))))))
  = Some Double.eu_client.
Proof.
  apply (X14_second_invocation_reuses_client Cases.up_runtime
           (VDict [("body", VStr "{message:")]) (Double.event_of Double.hello_request)
           Double.context
           {| invoked_function_arn := "arn:aws:lambda:us-west-2:1:function:other" |}
           Double.eu_client).
  reflexivity.
Defined.

(** X15. What one invocation of [lambda_handler] sends out: the client
    construction when none is cached, then nothing more or one call of the
    model, made with the configured model identifier and the JSON content
    type.  It never posts to the self-hosted backend and never calls the
    model twice. *)
Theorem X15_hosted_calls_shape
  (rt : Runtime) (event : value) (context : lambda_context) (cached : option client) :
  let out := lambda_handler rt event context (start cached) in
  calls (fst out) = construction_calls context cached
  \/ exists c request_body,
       calls (fst out)
       = (construction_calls context cached
          ++ [InvokeModel c (MODEL_ID rt) request_body "application/json"])%list.
Proof.
  cbv zeta. rewrite lambda_handler_from_start.
  destruct (client_ready rt context cached) as [c|e]; simpl; auto.
  destruct (hosted_prepare rt event) as [prepared|e]; simpl; eauto.
Qed.

(** ** Errors of the hosted path *)

(** X16. When the call of the model raises (a service or transport error),
    [lambda_handler] returns 500 with the text of that error, and the log
    holds that one call of the model: it does not try again. *)
Theorem X16_hosted_transport_error
  (rt : Runtime) (event : value) (context : lambda_context) (cached : option client)
  (c : client) (modelId request_body contentType : string) (e : library_error) :
  let out := lambda_handler rt event context (start cached) in
  In (InvokeModel c modelId request_body contentType) (calls (fst out)) ->
  invoke_model rt c modelId request_body contentType = Raise e ->
  snd out
  = Ok {| statusCode := 500;
          headers := cors_headers;
          body := json_dumps rt (VDict [("success", VBool false);
                                        ("error", VStr (str_exn e))]) |}
  /\ filter is_model_call (calls (fst out))
     = [InvokeModel c modelId request_body contentType].
Proof.
  intros out Hin Hi. subst out. rewrite lambda_handler_from_start in *.
  pose proof (construction_calls_only context cached) as Hcc.
  destruct (client_ready rt context cached) as [c0|e0].
  - destruct (hosted_prepare rt event) as [prepared|e1].
    + cbv zeta in *. cbn [fst snd calls] in *.
      assert (Hf : filter is_model_call (construction_calls context cached) = [])
        by (destruct cached; reflexivity).
      apply in_app_or in Hin as [Hin|[Hin|[]]].
      * destruct cached; simpl in Hin; [contradiction|].
        destruct Hin as [Hin|[]]; discriminate.
      * inversion Hin; subst. rewrite Hi. cbn [from_library and_then].
        rewrite filter_app, Hf. split; reflexivity.
    + cbn [fst calls] in Hin. destruct cached; simpl in Hin; [contradiction|].
      destruct Hin as [Hin|[]]; discriminate.
  - cbn [fst calls] in Hin. destruct cached; simpl in Hin; [contradiction|].
    destruct Hin as [Hin|[]]; discriminate.
Qed.

Lemma X16_hosted_transport_error_witness :
  snd (lambda_handler Cases.down_runtime (Double.event_of Double.hello_request)
         Double.context (start None))
  = Ok {| statusCode := 500;
          headers := cors_headers;
          body := json_dumps Cases.down_runtime
                    (VDict [("success", VBool false);
                            ("error", VStr "An error occurred (ThrottlingException)")]) |}
  /\ filter is_model_call
       (calls (fst (lambda_handler Cases.down_runtime (Double.event_of Double.hello_request)
                      Double.context (start None))))
     = [InvokeModel Double.eu_client (MODEL_ID Cases.down_runtime)
          (json_dumps Cases.down_runtime
             (request_payload [hosted_message "user" (VStr "hello")]))
          "application/json"].
Proof.
  apply (X16_hosted_transport_error Cases.down_runtime
           (Double.event_of Double.hello_request) Double.context None
           Double.eu_client (MODEL_ID Cases.down_runtime)
           (json_dumps Cases.down_runtime
              (request_payload [hosted_message "user" (VStr "hello")]))
           "application/json"
           (LibraryError "ClientError" "An error occurred (ThrottlingException)")).
  - right. left. reflexivity.
  - reflexivity.
Defined.

(** X17. A history holding an element that is not a turn (no [role], or a
    [user] or [assistant] role without [content]) makes [lambda_handler]
    return 500, and the model is not called. *)
Theorem X17_history_with_a_non_turn
  (rt : Runtime) (event : value) (context : lambda_context) (cached : option client)
  (request message : value) (history : list value) :
  decoded_body rt event request ->
  getitem request "message" = Ok message ->
  get request "conversationHistory" (VList []) = Ok (VList history) ->
  forallb is_turn history = false ->
  let out := lambda_handler rt event context (start cached) in
  (exists r, snd out = Ok r /\ statusCode r = 500%Z)
  /\ existsb is_model_call (calls (fst out)) = false.
Proof.
  intros Hd Hm Hh Ht out. subst out.
  assert (Hp : parse_request rt event = Ok (message, VList history))
    by (apply parse_request_ok; eauto).
  assert (Hprep : exists e, hosted_prepare rt event = Raise e).
  { unfold hosted_prepare. destruct (read_user_info rt event) as [[]|e]; simpl; eauto.
    rewrite Hp. cbn [and_then fst snd].
    destruct (print_processing rt message) as [[]|e]; simpl; eauto.
    cbn [and_then fst snd assemble_messages copy Py.append map_messages iterate].
    destruct (bedrock_messages (history ++ [turn "user" message])) as [mapped|e] eqn:E;
      simpl; eauto.
    apply bedrock_messages_ok in E as [E _].
    rewrite forallb_app, Ht in E. discriminate. }
  destruct Hprep as [e He].
  destruct (lambda_handler_not_prepared rt event context cached e He) as (Hs & Hc & _).
  auto.
Qed.

Lemma X17_history_with_a_non_turn_witness :
  (exists r,
     snd (lambda_handler Cases.up_runtime
            (Double.event_of Cases.roleless_turn_request)
            Double.context (start None)) = Ok r
     /\ statusCode r = 500%Z)
  /\ existsb is_model_call
       (calls (fst (lambda_handler Cases.up_runtime
                      (Double.event_of Cases.roleless_turn_request)
                      Double.context (start None)))) = false.
Proof.
  apply (X17_history_with_a_non_turn Cases.up_runtime
           (Double.event_of Cases.roleless_turn_request) Double.context None
           Cases.roleless_turn_request (VStr "hello") [VDict [("content", VStr "hi")]]).
  - do 2 eexists. repeat split; reflexivity.
  - reflexivity.
  - reflexivity.
  - reflexivity.
Defined.

(** ** The request sent to the model, continued *)

(** X18. Whenever [lambda_handler] calls the model, the last message of the
    request is the new user message, [{role: user, content: [{text:
    message}]}] with the [message] of the request as it came; the messages
    before it come from the history and are no more than its turns. *)
Theorem X18_last_message_is_the_new_one
  (rt : Runtime) (event : value) (context : lambda_context) (cached : option client)
  (c : client) (modelId request_body contentType : string) :
  In (InvokeModel c modelId request_body contentType)
     (calls (fst (lambda_handler rt event context (start cached)))) ->
  exists request message history earlier,
    decoded_body rt event request
    /\ getitem request "message" = Ok message
    /\ get request "conversationHistory" (VList []) = Ok (VList history)
    /\ length earlier <= length history
    /\ request_body
       = json_dumps rt
           (VDict [("messages",
                    VList (earlier
                           ++ [VDict [("role", VStr "user");
                                      ("content", VList [VDict [("text", message)]])]]));
                   ("inferenceConfig",
                    VDict [("maxTokens", VInt 512);
                           ("stopSequences", VList []);
                           ("temperature", VFloat (Finite false 7 (-1)));
                           ("topP", VFloat (Finite false 9 (-1)))])]).
Proof.
  intros Hin.
  apply model_call_inv in Hin as (messages & mapped & Hp & _ & _ & -> & _ & _).
  apply hosted_prepare_ok in Hp as (request & message & history & _ & Hd & Hm & Hh & _ & ->).
  exists request, message, history, (map to_hosted (filter chat_role history)).
  repeat split; auto.
  - rewrite length_map. apply filter_length_le.
  - rewrite filter_app, map_app. reflexivity.
Qed.

Lemma X18_last_message_is_the_new_one_witness :
  exists request message history earlier,
    decoded_body Cases.up_runtime (Double.event_of Double.mixed_request) request
    /\ getitem request "message" = Ok message
    /\ get request "conversationHistory" (VList []) = Ok (VList history)
    /\ length earlier <= length history
    /\ json_dumps Cases.up_runtime
         (request_payload [hosted_message "user" (VStr "hi");
                           hosted_message "assistant" (VStr "hello");
                           hosted_message "user" (VStr "hello")])
       = json_dumps Cases.up_runtime
           (VDict [("messages",
                    VList (earlier
                           ++ [VDict [("role", VStr "user");
                                      ("content", VList [VDict [("text", message)]])]]));
                   ("inferenceConfig",
                    VDict [("maxTokens", VInt 512);
                           ("stopSequences", VList []);
                           ("temperature", VFloat (Finite false 7 (-1)));
                           ("topP", VFloat (Finite false 9 (-1)))])]).
Proof.
  apply (X18_last_message_is_the_new_one Cases.up_runtime
           (Double.event_of Double.mixed_request) Double.context None
           Double.eu_client (MODEL_ID Cases.up_runtime)
           (json_dumps Cases.up_runtime
              (request_payload [hosted_message "user" (VStr "hi");
                                hosted_message "assistant" (VStr "hello");
                                hosted_message "user" (VStr "hello")]))
           "application/json").
  right. left. reflexivity.
Defined.

(** ** The reply of the hosted model, continued *)

Lemma truthy_dict (d : list (string * value)) (k : string) (x : value) :
  lookup k d = Some x -> truthy (VDict d) = true.
Proof. destruct d; [discriminate | reflexivity]. Qed.

Lemma extract_reply_of_structure
  (d output message first : list (string * value)) (rest : list value) (text : value) :
  lookup "output" d = Some (VDict output) ->
  lookup "message" output = Some (VDict message) ->
  lookup "content" message = Some (VList (VDict first :: rest)) ->
  lookup "text" first = Some text ->
  extract_reply (VDict d) = Ok text.
Proof.
  intros Ho Hm Hc Ht. unfold extract_reply.
  cbn [get getitem]. rewrite Ho. cbn [and_then].
  rewrite (truthy_dict _ _ _ Hm). cbn [negb and_then get getitem]. rewrite Hm.
  cbn [and_then]. rewrite (truthy_dict _ _ _ Hc). cbn [negb and_then get getitem].
  rewrite Hc. cbn [and_then truthy negb getitem0 getitem]. now rewrite Ht.
Qed.

(** X19. The reply text is read from exactly one place: [extract_reply]
    returns [text] if and only if the decoded answer is an object whose
    [output] is an object whose [message] is an object whose [content] is a
    list that starts with an object whose [text] is [text].  Further elements
    of the list and other fields play no part, and [text] can be any value. *)
Theorem X19_extract_reply_reads_first_text (reply_doc text : value) :
  extract_reply reply_doc = Ok text <->
  exists d output message first rest,
    reply_doc = VDict d
    /\ lookup "output" d = Some (VDict output)
    /\ lookup "message" output = Some (VDict message)
    /\ lookup "content" message = Some (VList (VDict first :: rest))
    /\ lookup "text" first = Some text.
Proof.
  split.
  - intros H.
    assert (Hb : bears_reply_text reply_doc = true).
    { destruct (bears_reply_text reply_doc) eqn:E; [reflexivity|].
      destruct (extract_reply_lacking reply_doc E) as (e & He & _). congruence. }
    unfold bears_reply_text in Hb.
    destruct reply_doc as [| | | | | |d]; try discriminate.
    destruct (lookup "output" d) as [[| | | | | |output]|] eqn:Ho; try discriminate.
    destruct (lookup "message" output) as [[| | | | | |message]|] eqn:Hm; try discriminate.
    destruct (lookup "content" message) as [[| | | | |[|[| | | | | |first] rest]|]|] eqn:Hc;
      try discriminate.
    destruct (lookup "text" first) as [text'|] eqn:Ht; [|discriminate].
    rewrite (extract_reply_of_structure d output message first rest text' Ho Hm Hc Ht) in H.
    inversion H; subst. eauto 10.
  - intros (d & output & message & first & rest & -> & Ho & Hm & Hc & Ht).
    eapply extract_reply_of_structure; eauto.
Qed.

Lemma X19_extract_reply_reads_first_text_witness :
  extract_reply Cases.rich_reply = Ok (VStr "first").
Proof.
  apply (proj2 (X19_extract_reply_reads_first_text Cases.rich_reply (VStr "first"))).
  do 5 eexists. repeat split; reflexivity.
Defined.



(** X21. When the model answers an object in which [output], [output.message]
    or [output.message.content] is absent, or the content is the empty list,
    the error text of the 500 response is [No response content from the
    model]. *)
Theorem X21_no_response_content_message
  (rt : Runtime) (event : value) (context : lambda_context) (cached : option client)
  (c : client) (modelId request_body contentType text : string)
  (d : list (string * value)) :
  let out := lambda_handler rt event context (start cached) in
  In (InvokeModel c modelId request_body contentType) (calls (fst out)) ->
  invoke_model rt c modelId request_body contentType = Ok text ->
  json_loads rt text = Ok (VDict d) ->
  (lookup "output" d = None
   \/ (exists output,
         lookup "output" d = Some (VDict output)
         /\ (lookup "message" output = None
             \/ exists message,
                  lookup "message" output = Some (VDict message)
                  /\ (lookup "content" message = None
                      \/ lookup "content" message = Some (VList []))))) ->
  snd out
  = Ok {| statusCode := 500;
          headers := cors_headers;
          body := json_dumps rt
                    (VDict [("success", VBool false);
                            ("error", VStr "No response content from the model")]) |}.
Proof.
  intros out Hin Hi Hl Hk.
  apply model_call_inv in Hin as (messages & mapped & _ & _ & _ & _ & _ & Hout).
  fold out in Hout. rewrite Hout, Hi. cbn [from_library and_then]. unfold hosted_finish.
  rewrite Hl. cbn [from_library and_then].
  assert (He : extract_reply (VDict d) = Raise no_content).
  { unfold extract_reply. cbn [get getitem].
    destruct Hk as [Ho|(output & Ho & Hk)]; rewrite Ho; [reflexivity|].
    cbn [and_then]. destruct output as [|entry output]; [reflexivity|].
    cbn [truthy negb and_then get getitem].
    destruct Hk as [Hm|(message & Hm & Hk)]; rewrite Hm; [reflexivity|].
    cbn [and_then]. destruct message as [|entry' message]; [reflexivity|].
    cbn [truthy negb and_then get getitem].
    destruct Hk as [Hc|Hc]; rewrite Hc; reflexivity. }
  rewrite He. reflexivity.
Qed.

Lemma X21_no_response_content_message_witness :
  snd (lambda_handler Cases.lacking_runtime (Double.event_of Double.hello_request)
         Double.context (start None))
  = Ok {| statusCode := 500;
          headers := cors_headers;
          body := json_dumps Cases.lacking_runtime
                    (VDict [("success", VBool false);
                            ("error", VStr "No response content from the model")]) |}.
Proof.
  apply (X21_no_response_content_message Cases.lacking_runtime
           (Double.event_of Double.hello_request) Double.context None
           Double.eu_client (MODEL_ID Cases.lacking_runtime)
           (json_dumps Cases.lacking_runtime
              (request_payload [hosted_message "user" (VStr "hello")]))
           "application/json" (Double.show Double.empty_content_reply)
           [("output", VDict [("message", VDict [("content", VList [])])])]).
  - right. left. reflexivity.
  - reflexivity.
  - reflexivity.
  - right. eexists. split; [reflexivity|]. right. eexists. split; [reflexivity|].
    right. reflexivity.
Defined.

(** ** The authorizer claims *)

(** X22. The authorizer claims do not reach the response: two events with
    the same [body], on both of which the claims (if any) are read and
    printed without an error, get the same response and make the same
    calls. *)
Theorem X22_claims_do_not_change_the_response
  (rt : Runtime) (event1 event2 : value) (context : lambda_context)
  (cached : option client) :
  getitem event1 "body" = getitem event2 "body" ->
  read_user_info rt event1 = Ok tt ->
  read_user_info rt event2 = Ok tt ->
  lambda_handler rt event1 context (start cached)
  = lambda_handler rt event2 context (start cached).
Proof.
  intros Hb H1 H2. rewrite !lambda_handler_from_start.
  assert (Hp : hosted_prepare rt event1 = hosted_prepare rt event2).
  { unfold hosted_prepare, parse_request. now rewrite H1, H2, Hb. }
  now rewrite Hp.
Qed.

Lemma X22_claims_do_not_change_the_response_witness :
  lambda_handler Cases.up_runtime (Cases.signed_in_event Double.hello_request)
    Double.context (start None)
  = lambda_handler Cases.up_runtime (Double.event_of Double.hello_request)
      Double.context (start None).
Proof.
  apply (X22_claims_do_not_change_the_response Cases.up_runtime
           (Cases.signed_in_event Double.hello_request)
           (Double.event_of Double.hello_request) Double.context None).
  - reflexivity.
  - reflexivity.
  - reflexivity.
Defined.

(** X23. An event with an authorizer entry that has no [claims] makes
    [lambda_handler] fail before it reads the request: 500, the model not
    called, and with a client cached the error text is the [KeyError] of
    [claims], whatever the body holds. *)
Theorem X23_authorizer_without_claims
  (rt : Runtime) (context : lambda_context) (cached : option client)
  (entries request_context authorizer : list (string * value)) :
  lookup "requestContext" entries = Some (VDict request_context) ->
  lookup "authorizer" request_context = Some (VDict authorizer) ->
  lookup "claims" authorizer = None ->
  let out := lambda_handler rt (VDict entries) context (start cached) in
  (exists r, snd out = Ok r /\ statusCode r = 500%Z)
  /\ existsb is_model_call (calls (fst out)) = false
  /\ forall c, cached = Some c ->
       out = (start (Some c),
              Ok {| statusCode := 500;
                    headers := cors_headers;
                    body := json_dumps rt
                              (VDict [("success", VBool false);
                                      ("error", VStr "'claims'")]) |}).
Proof.
  intros Hr Ha Hc out. subst out.
  assert (Hu : read_user_info rt (VDict entries) = Raise (KeyError "'claims'")).
  { unfold read_user_info. cbn [contains getitem]. rewrite Hr. cbn [and_then contains].
    rewrite Ha. cbn [and_then getitem]. rewrite Ha. cbn [and_then getitem].
    now rewrite Hc. }
  assert (Hp : hosted_prepare rt (VDict entries) = Raise (KeyError "'claims'"))
    by (unfold hosted_prepare; now rewrite Hu).
  destruct (lambda_handler_not_prepared rt (VDict entries) context cached _ Hp)
    as (Hs & Hm & _).
  split; [exact Hs|]. split; [exact Hm|].
  intros c ->. rewrite lambda_handler_from_start, Hp. reflexivity.
Qed.

Lemma X23_authorizer_without_claims_witness :
  (exists r,
     snd (lambda_handler Cases.up_runtime
            (Cases.claimless_event Double.hello_request)
            Double.context (start None)) = Ok r
     /\ statusCode r = 500%Z)
  /\ existsb is_model_call
       (calls (fst (lambda_handler Cases.up_runtime
                      (Cases.claimless_event Double.hello_request)
                      Double.context (start None)))) = false.
Proof.
  destruct (X23_authorizer_without_claims Cases.up_runtime Double.context None
              [("requestContext", VDict [("authorizer", VDict [])]);
               ("body", VStr (Double.show Double.hello_request))]
              [("authorizer", VDict [])] [] eq_refl eq_refl eq_refl)
    as (Hs & Hm & _).
  split; [exact Hs | exact Hm].
Defined.

(** X24. Reading the user never fails on an event without a [requestContext]
    or on one whose [requestContext] has no [authorizer]: nothing is printed.
    On one whose authorizer [claims] are an object it does not fail either,
    as long as the log can take the value it prints: the [email] if that is
    truthy, otherwise the [cognito:username] (or [None]).  Those events go
    on to the request. *)
Theorem X24_user_info_readable
  (rt : Runtime) (entries : list (string * value)) :
  match lookup "requestContext" entries with
  | None => True
  | Some (VDict request_context) =>
      match lookup "authorizer" request_context with
      | None => True
      | Some (VDict authorizer) =>
          match lookup "claims" authorizer with
          | Some (VDict claims) =>
              let username :=
                match lookup "cognito:username" claims with
                | Some name => name
                | None => VNone
                end in
              match lookup "email" claims with
              | Some email =>
                  can_show rt (if truthy email then email else username) = true
              | None => can_show rt username = true
              end
          | _ => False
          end
      | Some _ => False
      end
  | Some _ => False
  end ->
  read_user_info rt (VDict entries) = Ok tt.
Proof.
  unfold read_user_info. cbn [contains getitem].
  destruct (lookup "requestContext" entries) as [[| | | | | |rc]|]; try contradiction;
    [|reflexivity].
  cbn [and_then contains].
  destruct (lookup "authorizer" rc) as [[| | | | | |au]|] eqn:Ha; try contradiction;
    [|reflexivity].
  cbn [and_then getitem]. rewrite Ha. cbn [and_then getitem].
  destruct (lookup "claims" au) as [[| | | | | |cl]|]; try contradiction.
  cbv zeta. cbn [and_then get].
  destruct (lookup "email" cl) as [email|]; cbn [and_then].
  - destruct (truthy email); cbn [and_then].
    + intros H. now apply print_value_ok.
    + destruct (lookup "cognito:username" cl); cbn [and_then];
        intros H; now apply print_value_ok.
  - cbn [truthy]. destruct (lookup "cognito:username" cl); cbn [and_then];
      intros H; now apply print_value_ok.
Qed.

Lemma X24_user_info_readable_witness :
  read_user_info Cases.up_runtime (Cases.signed_in_event Double.hello_request) = Ok tt.
Proof.
  apply (X24_user_info_readable Cases.up_runtime
           [("requestContext",
             VDict [("authorizer",
                     VDict [("claims", VDict [("email", VStr "a@example.org")])])]);
            ("body", VStr (Double.show Double.hello_request))]).
  reflexivity.
Defined.

(** ** Success, in general *)



Lemma hosted_prepare_turns (rt : Runtime) (event messages : value) (mapped : list value) :
  hosted_prepare rt event = Ok (messages, mapped) ->
  exists items, messages = VList items /\ forallb is_turn items = true.
Proof.
  unfold hosted_prepare. intros H.
  invert_ok H. invert_ok H. invert_ok H. invert_ok H. invert_ok H.
  inversion H; subst; clear H.
  unfold assemble_messages in Hx2. invert_ok Hx2.
  destruct (snd x0); try discriminate; simpl in Hx4; inversion Hx4; subst;
    simpl in Hx2; try discriminate.
  inversion Hx2; subst. simpl in Hx3.
  apply bedrock_messages_ok in Hx3 as [Ht _]. eauto.
Qed.

(** X26. The history a successful [lambda_handler] returns can be sent back
    as it is: it is a list of turns, so the loop of the next invocation maps
    it without raising. *)
Theorem X26_hosted_history_can_be_sent_back
  (rt : Runtime) (event : value) (context : lambda_context) (cached : option client)
  (r : response) :
  let out := lambda_handler rt event context (start cached) in
  snd out = Ok r ->
  statusCode r = 200%Z ->
  exists reply returned,
    body r
    = json_dumps rt (VDict [("success", VBool true);
                            ("response", reply);
                            ("conversationHistory", VList returned)])
    /\ forallb is_turn returned = true
    /\ bedrock_messages returned = Ok (map to_hosted (filter chat_role returned)).
Proof.
  intros out Hr Hs. subst out. rewrite lambda_handler_from_start in Hr.
  destruct (client_ready rt context cached) as [c|e];
    [|inversion Hr; subst; discriminate].
  destruct (hosted_prepare rt event) as [[messages mapped]|e] eqn:Hp;
    [|inversion Hr; subst; discriminate].
  cbv zeta in Hr. cbn [fst snd] in Hr.
  destruct (invoke_model rt c (MODEL_ID rt) (json_dumps rt (request_payload mapped))
              "application/json") as [text|e];
    [|inversion Hr; subst; discriminate].
  cbn [from_library and_then] in Hr.
  destruct (hosted_finish rt messages text) as [r'|e] eqn:Hf;
    [|inversion Hr; subst; discriminate].
  inversion Hr; subst r'; clear Hr.
  apply hosted_finish_ok in Hf as (reply_doc & reply & items & _ & _ & Hitems & ->).
  apply hosted_prepare_turns in Hp as (items' & Hm & Ht).
  rewrite Hm in Hitems. inversion Hitems; subst items'.
  assert (Hr : forallb is_turn (items ++ [turn "assistant" reply]) = true).
  { rewrite forallb_app, Ht. cbn [forallb andb]. now rewrite is_turn_turn. }
  exists reply, (items ++ [turn "assistant" reply])%list.
  split; [reflexivity|]. split; [exact Hr|].
  now apply bedrock_messages_of_turns.
Qed.

Lemma X26_hosted_history_can_be_sent_back_witness :
  exists reply returned,
    body (hosted_success Cases.up_runtime (VStr "first")
            (VList (Double.mixed_history
                    ++ [turn "user" (VStr "hello"); turn "assistant" (VStr "first")])))
    = json_dumps Cases.up_runtime
        (VDict [("success", VBool true);
                ("response", reply);
                ("conversationHistory", VList returned)])
    /\ forallb is_turn returned = true
    /\ bedrock_messages returned = Ok (map to_hosted (filter chat_role returned)).
Proof.
  apply (X26_hosted_history_can_be_sent_back Cases.up_runtime
           (Double.event_of Double.mixed_request) Double.context None
           (hosted_success Cases.up_runtime (VStr "first")
              (VList (Double.mixed_history
                      ++ [turn "user" (VStr "hello");
                          turn "assistant" (VStr "first")])))).
  - reflexivity.
  - reflexivity.
Defined.

(** ** The two [except] arms *)

(** X27. The self-hosted backend answers a document without [generated_text]
    or without [response_time].  The handler never answers that with a
    success: what it returns is 500 with [success: false].  It does return
    when the log can take the document (always, unless the document is a
    string with a character the standard output cannot encode); the one error
    that leaves the handler is the [UnicodeEncodeError] of printing such a
    string. *)
Theorem X27_fastapi_reply_without_fields
  (rt : Runtime) (event : value) (context : lambda_context) (cached : option client)
  (request message api : value) (text : string) :
  decoded_body rt event request ->
  getitem request "message" = Ok message ->
  urlopen rt (fastapi_request rt message) = Ok text ->
  json_loads rt text = Ok api ->
  has_key api "generated_text" = false \/ has_key api "response_time" = false ->
  let out := lambda_fastapi_handler rt event context (start cached) in
  (forall r, snd out = Ok r ->
     statusCode r = 500%Z
     /\ exists error,
          body r = json_dumps rt (VDict [("success", VBool false);
                                         ("error", VStr error)]))
  /\ (can_show rt api = true -> exists r, snd out = Ok r /\ statusCode r = 500%Z)
  /\ (forall e, snd out = Raise e ->
        exists s,
          api = VStr s
          /\ printable rt s = false
          /\ e = unicode_encode_error rt ("Unexpected response from FastAPI: " ++ s)).
Proof.
  intros Hd Hm Hu Hl Hk out. subst out.
  assert (Hh : exists history, get request "conversationHistory" (VList []) = Ok history).
  { apply getitem_ok in Hm as (d & -> & _). simpl.
    destruct (lookup "conversationHistory" d); eauto. }
  destruct Hh as [history Hh].
  assert (Hp : parse_request rt event = Ok (message, history))
    by (apply parse_request_ok; eauto).
  rewrite lambda_fastapi_handler_run, Hp. cbn [fst snd]. rewrite Hu.
  cbn [from_library and_then].
  destruct (fastapi_finish_lacking rt history api text Hl Hk) as [e He]. rewrite He.
  destruct (fastapi_finish_raise rt history text e He) as [Hpr|(s & Hs & Hn & ->)].
  - rewrite (handled_printable rt e Hpr). split; [|split].
    + intros r H. inversion H; subst. simpl. eauto.
    + intros _. eexists. split; reflexivity.
    + discriminate.
  - assert (api = VStr s) by congruence. subst api.
    unfold handled, print_error. cbn [error_printable can_show andb].
    rewrite Hn, andb_false_r. cbn [and_then]. split; [|split].
    + discriminate.
    + simpl. congruence.
    + intros e H. inversion H; subst. exists s. auto.
Qed.

Lemma X27_fastapi_reply_without_fields_witness :
  (forall r,
     snd (lambda_fastapi_handler Cases.garbled_runtime
            (Double.event_of Double.ping_request) Double.context (start None)) = Ok r ->
     statusCode r = 500%Z
     /\ exists error,
          body r = json_dumps Cases.garbled_runtime
                     (VDict [("success", VBool false); ("error", VStr error)]))
  /\ (can_show Cases.garbled_runtime Cases.garbled_reply = true ->
      exists r,
        snd (lambda_fastapi_handler Cases.garbled_runtime
               (Double.event_of Double.ping_request) Double.context (start None)) = Ok r
        /\ statusCode r = 500%Z)
  /\ (forall e,
        snd (lambda_fastapi_handler Cases.garbled_runtime
               (Double.event_of Double.ping_request) Double.context (start None))
        = Raise e ->
        exists s,
          Cases.garbled_reply = VStr s
          /\ printable Cases.garbled_runtime s = false
          /\ e = unicode_encode_error Cases.garbled_runtime
                   ("Unexpected response from FastAPI: " ++ s)).
Proof.
  apply (X27_fastapi_reply_without_fields Cases.garbled_runtime
           (Double.event_of Double.ping_request) Double.context None
           Double.ping_request (VStr "ping") Cases.garbled_reply
           (Double.show Cases.garbled_reply)).
  - do 2 eexists. repeat split; reflexivity.
  - reflexivity.
  - reflexivity.
  - reflexivity.
  - left. reflexivity.
Defined.

(** X28. [lambda_handler] answers every invocation, whatever the event, the
    state of the process and the behaviour of the libraries and the model:
    no error of its [try] has a text its [except] arm cannot print.  The
    response carries the four fixed headers; it is 200 with [success: true],
    the reply and the history, or 500 with [success: false] and an error
    text. *)
Theorem X28_hosted_handler_always_answers
  (rt : Runtime) (event : value) (context : lambda_context) (w : world) :
  exists r,
    snd (lambda_handler rt event context w) = Ok r
    /\ headers r
       = [("Content-Type", "application/json");
          ("Access-Control-Allow-Origin", "*");
          ("Access-Control-Allow-Headers",
           "Content-Type,X-Amz-Date,Authorization,X-Api-Key,X-Amz-Security-Token");
          ("Access-Control-Allow-Methods", "OPTIONS,POST")]
    /\ ((statusCode r = 200%Z
         /\ exists reply history,
              body r = json_dumps rt (VDict [("success", VBool true);
                                             ("response", reply);
                                             ("conversationHistory", history)]))
        \/ (statusCode r = 500%Z
            /\ exists error,
                 body r = json_dumps rt (VDict [("success", VBool false);
                                                ("error", VStr error)]))).
Proof.
  assert (Hf : forall e,
             headers (failure_response rt e) = cors_headers
             /\ statusCode (failure_response rt e) = 500%Z
             /\ exists error,
                  body (failure_response rt e)
                  = json_dumps rt (VDict [("success", VBool false);
                                          ("error", VStr error)]))
    by (intros e; simpl; eauto).
  rewrite lambda_handler_run.
  destruct (acquire_client rt context w) as [w1 [[]|e]].
  - destruct (hosted_prepare rt event) as [prepared|e].
    + destruct (bedrock_client w1) as [c|].
      * cbv zeta. cbn [snd]. eexists. split; [reflexivity|].
        destruct (let* reply_text := from_library (invoke_model rt c _ _ _) in _)
          as [r|e] eqn:Hr.
        -- invert_ok Hr.
           apply hosted_finish_ok in Hr as (reply_doc & reply & items & _ & _ & _ & ->).
           split; [reflexivity|]. left. simpl. eauto.
        -- destruct (Hf e) as (Hh & Hs & Hb). split; [exact Hh|]. right. auto.
      * eexists. split; [reflexivity|].
        destruct (Hf (no_attribute VNone "invoke_model")) as (Hh & Hs & Hb).
        split; [exact Hh|]. right. auto.
    + eexists. split; [reflexivity|].
      destruct (Hf e) as (Hh & Hs & Hb). split; [exact Hh|]. right. auto.
  - eexists. split; [reflexivity|].
    destruct (Hf e) as (Hh & Hs & Hb). split; [exact Hh|]. right. auto.
Qed.

(** X29. [lambda_fastapi_handler] either returns a response with the four
    fixed headers, 200 with [success: true], the reply, the response time and
    the history, or 500 with [success: false] and an error text, or it lets
    one error out: the [UnicodeEncodeError] of its [except] arm, when the
    backend answered a JSON string that the standard output cannot encode. *)
Theorem X29_fastapi_answers_or_cannot_print
  (rt : Runtime) (event : value) (context : lambda_context) (w : world) :
  match snd (lambda_fastapi_handler rt event context w) with
  | Ok r =>
      headers r
      = [("Content-Type", "application/json");
         ("Access-Control-Allow-Origin", "*");
         ("Access-Control-Allow-Headers",
          "Content-Type,X-Amz-Date,Authorization,X-Api-Key,X-Amz-Security-Token");
         ("Access-Control-Allow-Methods", "OPTIONS,POST")]
      /\ ((statusCode r = 200%Z
           /\ exists reply time history,
                body r = json_dumps rt (VDict [("success", VBool true);
                                               ("response", reply);
                                               ("response_time", time);
                                               ("conversationHistory", history)]))
          \/ (statusCode r = 500%Z
              /\ exists error,
                   body r = json_dumps rt (VDict [("success", VBool false);
                                                  ("error", VStr error)])))
  | Raise e =>
      exists request message text s,
        decoded_body rt event request
        /\ getitem request "message" = Ok message
        /\ urlopen rt (fastapi_request rt message) = Ok text
        /\ json_loads rt text = Ok (VStr s)
        /\ printable rt s = false
        /\ e = unicode_encode_error rt ("Unexpected response from FastAPI: " ++ s)
  end.
Proof.
  assert (Hf : forall e,
             headers (failure_response rt e) = cors_headers
             /\ (statusCode (failure_response rt e) = 200%Z
                 /\ (exists reply time history,
                       body (failure_response rt e)
                       = json_dumps rt (VDict [("success", VBool true);
                                               ("response", reply);
                                               ("response_time", time);
                                               ("conversationHistory", history)]))
                 \/ statusCode (failure_response rt e) = 500%Z
                    /\ exists error,
                         body (failure_response rt e)
                         = json_dumps rt (VDict [("success", VBool false);
                                                 ("error", VStr error)])))
    by (intros e; split; [reflexivity|]; right; simpl; eauto).
  rewrite lambda_fastapi_handler_run.
  destruct (parse_request rt event) as [[message history]|e] eqn:Hp;
    [|cbn [snd]; apply Hf].
  cbn [fst snd].
  destruct (let* resp_body := from_library (urlopen rt _) in _) as [r|e] eqn:Hr.
  - invert_ok Hr.
    apply fastapi_finish_ok in Hr as (api & reply & time & items & _ & _ & _ & _ & ->).
    split; [reflexivity|]. left. simpl. eauto.
  - invert_raise Hr.
    { rewrite handled_printable by (eapply from_library_raise; eauto). apply Hf. }
    apply from_library_ok in Hx.
    destruct (fastapi_finish_raise rt history x e Hr) as [Hpr|(s & Hs & Hn & ->)].
    + rewrite (handled_printable rt e Hpr). apply Hf.
    + unfold handled, print_error. cbn [error_printable can_show andb].
      rewrite Hn, andb_false_r. cbn [and_then].
      apply parse_request_ok in Hp as (request & Hd & Hm & Hh).
      exists request, message, x, s. auto 10.
Qed.
